(** * The packaged-resource cache of [programs/buck_package.py]

    A shallow embedding of the [BuckPackage] class: the session object, the
    part of the operating system it talks to (paths, directories, files with
    permission bits, advisory locks, temporary names) and the read-only
    package resource API, followed by the properties of locating the cache
    directory, materialising resources and releasing the lock. *)

From Stdlib Require Import ZArith Ascii String List Lia.
From Stdlib.Strings Require Import Byte.
From stdpp Require Import gmap strings list fin_maps.

Local Open Scope string_scope.
Local Open Scope list_scope.
Local Open Scope Z_scope.

(** ** POSIX paths ([os.path] on a POSIX platform) *)

Module Path.

Definition sep : ascii := "/"%char.
Definition extsep : string := ".".

Definition is_sep (c : ascii) : bool := bool_decide (c = sep).

(** [p[:p.rfind('/') + 1]], or [None] when [p] holds no separator. *)
Fixpoint head_of (p : string) : option string :=
  match p with
  | EmptyString => None
  | String c r =>
      match head_of r with
      | Some h => Some (String c h)
      | None => if is_sep c then Some (String c EmptyString) else None
      end
  end.

(** [p[p.rfind('/') + 1:]]. *)
Fixpoint tail_of (p : string) : string :=
  match p with
  | EmptyString => EmptyString
  | String c r =>
      match head_of r with
      | Some _ => tail_of r
      | None => if is_sep c then r else p
      end
  end.

Fixpoint all_sep (p : string) : bool :=
  match p with
  | EmptyString => true
  | String c r => is_sep c && all_sep r
  end.

(** [p.rstrip('/')]. *)
Fixpoint rstrip_sep (p : string) : string :=
  match p with
  | EmptyString => EmptyString
  | String c r =>
      match rstrip_sep r with
      | EmptyString => if is_sep c then EmptyString else String c EmptyString
      | r' => String c r'
      end
  end.

(** [posixpath.dirname]: the head, without its trailing separators unless
    it consists of separators only. *)
Definition dirname (p : string) : string :=
  let head := default EmptyString (head_of p) in
  if all_sep head then head else rstrip_sep head.

Definition basename (p : string) : string := tail_of p.

Definition starts_with_sep (p : string) : bool :=
  match p with
  | String c _ => is_sep c
  | EmptyString => false
  end.

Fixpoint ends_with_sep (p : string) : bool :=
  match p with
  | EmptyString => false
  | String c EmptyString => is_sep c
  | String _ r => ends_with_sep r
  end.

(** [posixpath.join a b]. *)
Definition join (a b : string) : string :=
  if starts_with_sep b then b
  else if bool_decide (a = EmptyString) || ends_with_sep a then a +:+ b
  else a +:+ String sep b.

End Path.

(** ** The operating system, as far as the class uses it

    One process at a time.  The file system maps a path, as written, to
    what is there: a regular file with its content and permission bits, or
    a directory; two spellings of one location (a trailing separator, a
    dot component) are two paths, and there are no links.  Exceptions are
    values; a computation that raises keeps the changes it made. *)

Inductive node :=
  | File (data : list Byte.byte) (mode : Z)
  | Dir.

Inductive errno := EEXIST | ENOENT | ENOTDIR | EISDIR | EBADF.

Inductive exn :=
  | OSError (e : errno)
  | Exception (msg : string)
  | KeyError (key : string)
  | ValueError
  | RecursionError.

(** The session object: the two fields [__init__] sets, and what it inherits
    from [BuckTool] ([_buck_out_tmp], and the value [_get_resources_signature]
    computes). *)
Record BuckPackage := mkBuckPackage {
  _buck_out_tmp : string;
  _resources_signature : string;
  _resource_subdir : option string;
  _lock_file : option nat
}.

Record os_state := mkOs {
  fs : gmap string node;          (* path -> what is there *)
  files : list string;            (* file objects, by number: their path *)
  closes : list nat;              (* [close()] calls on file objects, in order *)
  lock_calls : list string;       (* lock files [acquire_shared_lock] was tried on *)
  reads : list string;            (* names passed to [resource_string] *)
  rand : list string;             (* the names [tempfile] will propose next *)
  held_elsewhere : gset string    (* lock files another process holds exclusively *)
}.

Record state := mkState { self : BuckPackage; os : os_state }.

Definition set_fs (f : gmap string node -> gmap string node) (o : os_state) : os_state :=
  mkOs (f (fs o)) (files o) (closes o) (lock_calls o) (reads o) (rand o) (held_elsewhere o).
Definition set_files (f : list string -> list string) (o : os_state) : os_state :=
  mkOs (fs o) (f (files o)) (closes o) (lock_calls o) (reads o) (rand o) (held_elsewhere o).
Definition set_closes (f : list nat -> list nat) (o : os_state) : os_state :=
  mkOs (fs o) (files o) (f (closes o)) (lock_calls o) (reads o) (rand o) (held_elsewhere o).
Definition set_lock_calls (f : list string -> list string) (o : os_state) : os_state :=
  mkOs (fs o) (files o) (closes o) (f (lock_calls o)) (reads o) (rand o) (held_elsewhere o).
Definition set_reads (f : list string -> list string) (o : os_state) : os_state :=
  mkOs (fs o) (files o) (closes o) (lock_calls o) (f (reads o)) (rand o) (held_elsewhere o).
Definition set_rand (f : list string -> list string) (o : os_state) : os_state :=
  mkOs (fs o) (files o) (closes o) (lock_calls o) (reads o) (f (rand o)) (held_elsewhere o).

Definition set_resource_subdir (v : option string) (b : BuckPackage) : BuckPackage :=
  mkBuckPackage (_buck_out_tmp b) (_resources_signature b) v (_lock_file b).
Definition set_lock_file (v : option nat) (b : BuckPackage) : BuckPackage :=
  mkBuckPackage (_buck_out_tmp b) (_resources_signature b) (_resource_subdir b) v.

(** ** Computations: state threaded through, exceptions keep the state *)

Inductive result (A : Type) :=
  | Ok (a : A)
  | Raise (e : exn).
Arguments Ok {A} a.
Arguments Raise {A} e.

Definition M (A : Type) : Type := state -> result A * state.

Definition ret {A} (a : A) : M A := fun s => (Ok a, s).
Definition raise {A} (e : exn) : M A := fun s => (Raise e, s).
Definition bind {A B} (c : M A) (k : A -> M B) : M B :=
  fun s => match c s with
           | (Ok a, s') => k a s'
           | (Raise e, s') => (Raise e, s')
           end.
(** [try: c except: h] *)
Definition try_except {A} (c : M A) (h : exn -> M A) : M A :=
  fun s => match c s with
           | (Ok a, s') => (Ok a, s')
           | (Raise e, s') => h e s'
           end.
(** [try: c finally: f], also the exit half of a [with] block whose
    [__exit__] does not swallow the exception. *)
Definition finally {A} (c : M A) (f : M unit) : M A :=
  fun s => match c s with
           | (r, s') => match f s' with
                        | (Ok _, s'') => (r, s'')
                        | (Raise e, s'') => (Raise e, s'')
                        end
           end.

Definition get_os : M os_state := fun s => (Ok (os s), s).
Definition modify_os (f : os_state -> os_state) : M unit :=
  fun s => (Ok tt, mkState (self s) (f (os s))).
Definition get_self : M BuckPackage := fun s => (Ok (self s), s).
Definition modify_self (f : BuckPackage -> BuckPackage) : M unit :=
  fun s => (Ok tt, mkState (f (self s)) (os s)).

Declare Scope py_scope.
Delimit Scope py_scope with py.
Notation "x <- c ;; k" := (bind c (fun x => k))
  (at level 100, c at next level, right associativity) : py_scope.
Notation "c ;;; k" := (bind c (fun _ => k))
  (at level 100, right associativity) : py_scope.
Local Open Scope py_scope.

(** ** Operating-system primitives *)

Module Os.

Definition S_IXUSR : Z := 64.       (* 0o100 *)
Definition S_IFREG : Z := 32768.    (* 0o100000 *)
Definition tempdir : string := "/tmp".

Definition lookup_path (p : string) : M (option node) :=
  o <- get_os ;; ret (fs o !! p).

(** [os.path.exists] *)
Definition path_exists (p : string) : M bool :=
  n <- lookup_path p ;; ret (bool_decide (is_Some n)).

(** What a system call that creates the entry [p] checks first: the
    directory that is to hold it. *)
Definition check_parent (p : string) : M unit :=
  n <- lookup_path (Path.dirname p) ;;
  match n with
  | Some Dir => ret tt
  | Some (File _ _) => raise (OSError ENOTDIR)
  | None => raise (OSError ENOENT)
  end.

(** [os.mkdir] *)
Definition mkdir (p : string) : M unit :=
  n <- lookup_path p ;;
  match n with
  | Some _ => raise (OSError EEXIST)
  | None => check_parent p ;;; modify_os (set_fs (insert p Dir))
  end.

(** [os.makedirs]: the missing ancestors first (a concurrent creation of
    one of them is passed over), then the leaf, which must be new. *)
Fixpoint makedirs_rec (fuel : nat) (p : string) : M unit :=
  match fuel with
  | O => raise RecursionError
  | S fuel' =>
      let head := Path.dirname p in
      ex <- path_exists head ;;
      (if negb (bool_decide (head = EmptyString))
          && negb (bool_decide (Path.basename p = EmptyString))
          && negb ex
       then try_except (makedirs_rec fuel' head)
              (fun e => match e with
                        | OSError EEXIST => ret tt
                        | _ => raise e
                        end)
       else ret tt) ;;;
      mkdir p
  end.

Definition makedirs (p : string) : M unit :=
  makedirs_rec (S (String.length p)) p.

(** A new file object on [p]; its number is its position in [files]. *)
Definition new_file_object (p : string) : M nat :=
  o <- get_os ;;
  modify_os (set_files (fun l => l ++ [p])) ;;;
  ret (List.length (files o)).

(** [open(p, "a+")]: the file is created, empty, when it is not there. *)
Definition open_append (p : string) : M nat :=
  n <- lookup_path p ;;
  match n with
  | Some Dir => raise (OSError EISDIR)
  | Some (File _ _) => new_file_object p
  | None =>
      check_parent p ;;;
      modify_os (set_fs (insert p (File [] 420))) ;;;
      new_file_object p
  end.

Definition name_of (h : nat) : M string :=
  o <- get_os ;;
  match files o !! h with
  | Some p => ret p
  | None => raise (OSError EBADF)
  end.

(** [f.close()] *)
Definition close (h : nat) : M unit :=
  modify_os (set_closes (fun l => l ++ [h])).

(** The first proposed name whose path is free, and the names left. *)
Fixpoint fresh_name (m : gmap string node) (mk : string -> string)
    (names : list string) : option (string * list string) :=
  match names with
  | [] => None
  | s :: rest =>
      match m !! mk s with
      | None => Some (mk s, rest)
      | Some _ => fresh_name m mk rest
      end
  end.

Definition next_fresh (mk : string -> string) : M string :=
  o <- get_os ;;
  match fresh_name (fs o) mk (rand o) with
  | None => modify_os (set_rand (fun _ => [])) ;;; raise (OSError EEXIST)
  | Some (p, rest) => modify_os (set_rand (fun _ => rest)) ;;; ret p
  end.

(** [tempfile.mkdtemp(dir=d, prefix=pre)] *)
Definition mkdtemp (d pre : string) : M string :=
  p <- next_fresh (fun s => Path.join d (pre +:+ s)) ;;
  mkdir p ;;;
  ret p.

(** [tempfile.NamedTemporaryFile(prefix=pre, delete=False)]: a new file,
    readable and writable by its owner only, in the default directory for
    temporary files unless [pre] is absolute. *)
Definition NamedTemporaryFile (pre : string) : M nat :=
  p <- next_fresh (fun s => Path.join tempdir (pre +:+ s)) ;;
  check_parent p ;;;
  modify_os (set_fs (insert p (File [] 384))) ;;;
  new_file_object p.

Definition read_file (p : string) : M (list Byte.byte * Z) :=
  n <- lookup_path p ;;
  match n with
  | Some (File d m) => ret (d, m)
  | Some Dir => raise (OSError EISDIR)
  | None => raise (OSError ENOENT)
  end.

(** [f.write(data)] *)
Definition write (h : nat) (data : list Byte.byte) : M unit :=
  p <- name_of h ;;
  dm <- read_file p ;;
  modify_os (set_fs (insert p (File (fst dm ++ data) (snd dm)))).

(** [os.fstat(f.fileno()).st_mode] *)
Definition fstat_mode (h : nat) : M Z :=
  p <- name_of h ;;
  dm <- read_file p ;;
  ret (Z.lor S_IFREG (snd dm)).

(** [os.fchmod(f.fileno(), mode)]: the permission bits of [mode]. *)
Definition fchmod (h : nat) (mode : Z) : M unit :=
  p <- name_of h ;;
  dm <- read_file p ;;
  modify_os (set_fs (insert p (File (fst dm) (Z.land mode 4095)))).

(** [os.remove] *)
Definition remove (p : string) : M unit :=
  n <- lookup_path p ;;
  match n with
  | Some (File _ _) => modify_os (set_fs (delete p))
  | Some Dir => raise (OSError EISDIR)
  | None => raise (OSError ENOENT)
  end.

(** [shutil.copy(src, dst)]: content and permission bits; into [dst] when
    [dst] is a directory. *)
Definition copy (src dst : string) : M unit :=
  n <- lookup_path dst ;;
  let dst' := match n with
              | Some Dir => Path.join dst (Path.basename src)
              | _ => dst
              end in
  dm <- read_file src ;;
  n' <- lookup_path dst' ;;
  match n' with
  | Some Dir => raise (OSError EISDIR)
  | _ => check_parent dst' ;;;
         modify_os (set_fs (insert dst' (File (fst dm) (snd dm))))
  end.

End Os.

(** Modelled from the spec: [file_locks.acquire_shared_lock] and
    [file_locks.BUCK_LOCK_FILE_NAME] are not in the sources at hand.  The lock
    primitive "attempts a non-blocking shared advisory lock" on an open marker
    file and reports it unavailable, without an error, when "the lock is
    already held exclusively". *)
Module file_locks.

Definition BUCK_LOCK_FILE_NAME : string := ".buck_lock".

Definition acquire_shared_lock (lock_file : nat) : M bool :=
  p <- Os.name_of lock_file ;;
  modify_os (set_lock_calls (fun l => l ++ [p])) ;;;
  o <- get_os ;;
  ret (negb (bool_decide (p ∈ held_elsewhere o))).

End file_locks.

(** ** The package resource API ([pkg_resources]), read only *)

Record package := mkPackage {
  resource_exists : string -> bool;
  resource_isdir : string -> bool;
  resource_listdir : string -> list string;
  resource_bytes : string -> list Byte.byte
}.

(** [pkg_resources.resource_string]: the one call that reads content; each
    call is recorded. *)
Definition resource_string (pkg : package) (name : string) : M (list Byte.byte) :=
  modify_os (set_reads (fun l => l ++ [name])) ;;;
  ret (resource_bytes pkg name).

(** [Resource] of [buck_tool]: a declared item of the package. *)
Record Resource := mkResource {
  name : string;
  executable : bool;
  basename : string
}.

#[global] Instance errno_eq_dec : EqDecision errno.
Proof. solve_decision. Defined.

(** [for x in l: body x] *)
Fixpoint for_each {A} (l : list A) (body : A -> M unit) : M unit :=
  match l with
  | [] => ret tt
  | x :: rest => body x ;;; for_each rest body
  end.

(** [os.path.join] on a first component that may be [None]. *)
Definition os_path_join (a : option string) (b : string) : M string :=
  match a with
  | Some a' => ret (Path.join a' b)
  | None => raise (Exception "TypeError")
  end.

(** Modelled from the spec: [MovableTemporaryFile] of [buck_tool] is not in
    the sources at hand.  The block works on "a temporary file created
    alongside the final location"; a file that was not moved away is
    discarded when the block is left, on every path. *)
Definition with_MovableTemporaryFile {A} (prefix : string) (body : nat -> M A) : M A :=
  f <- Os.NamedTemporaryFile prefix ;;
  finally (body f) (p <- Os.name_of f ;; Os.remove p).

(** ** The class [BuckPackage] *)

Definition MODULES_DIR : string := "buck-modules".
Definition MODULES_RESOURCES_DIR : string := "buck-modules-resources".
Definition BUCK_FAKE_VERSION_ENV : string := "BUCK_FAKE_VERSION".

Section BuckPackage.

Variable pkg : package.
(** [os.environ] *)
Variable environ : gmap string string.
(** [json.loads], on the content of [buck_package_info] *)
Variable json_loads : list Byte.byte -> result (gmap string string).
(** [hasattr(os, "fchmod")] *)
Variable has_fchmod : bool.
(** the interpreter's recursion limit *)
Variable recursion_limit : nat.

Definition _get_package_info : M (gmap string string) :=
  raw <- resource_string pkg "buck_package_info" ;;
  match json_loads raw with
  | Ok info => ret info
  | Raise e => raise e
  end.

Definition get_fake_version (dflt : string) : M string :=
  ret (default dflt (environ !! BUCK_FAKE_VERSION_ENV)).

Definition get_buck_version : M string :=
  fake_version <- get_fake_version "" ;;
  if negb (bool_decide (fake_version = ""))
  then ret fake_version
  else
    info <- _get_package_info ;;
    match info !! "version" with
    | Some v => ret v
    | None => raise (KeyError "version")
    end.

Definition has_fake_version : M bool :=
  v <- get_fake_version "" ;; ret (negb (bool_decide (v = ""))).

Definition _get_resources_signature : M string :=
  b <- get_self ;; ret (_resources_signature b).

Definition _get_resource_dir : M string :=
  b <- get_self ;; ret (Path.join (_buck_out_tmp b) "resources").

Definition __create_dir (dir : string) : M unit :=
  try_except (Os.makedirs dir)
    (fun ex => match ex with
               | OSError e => if negb (bool_decide (e = EEXIST)) then raise ex else ret tt
               | _ => raise ex
               end).

Definition try_subdir (lock_file_dir : string) : M (option nat) :=
  __create_dir lock_file_dir ;;;
  let lock_file_path := Path.join lock_file_dir file_locks.BUCK_LOCK_FILE_NAME in
  lock_file <- Os.open_append lock_file_path ;;
  locked <- file_locks.acquire_shared_lock lock_file ;;
  if locked then ret (Some lock_file) else ret None.

Definition _get_resource_subdir : M (option string) :=
  b <- get_self ;;
  match _resource_subdir b with
  | None =>
      resources_signature <- _get_resources_signature ;;
      resource_dir <- _get_resource_dir ;;
      let subdir := Path.join resource_dir resources_signature in
      lf <- try_subdir subdir ;;
      modify_self (set_lock_file lf) ;;;
      match lf with
      | Some _ => modify_self (set_resource_subdir (Some subdir))
      | None =>
          subdir <- Os.mkdtemp resource_dir resources_signature ;;
          lf <- try_subdir subdir ;;
          modify_self (set_lock_file lf) ;;;
          match lf with
          | None => raise (Exception ("Could not acquire lock in fresh tmp dir: " +:+ subdir))
          | Some _ => modify_self (set_resource_subdir (Some subdir))
          end
      end
  | Some _ => ret tt
  end ;;;
  b <- get_self ;;
  ret (_resource_subdir b).

Definition _get_resource_lock_path : M string :=
  d <- _get_resource_subdir ;;
  os_path_join d file_locks.BUCK_LOCK_FILE_NAME.

Definition _has_resource (resource : Resource) : M bool :=
  ret (resource_exists pkg (name resource)).

(** The body of the [with MovableTemporaryFile(...)] block. *)
Definition write_leaf (resource_path resource_name : string)
    (resource_executable : bool) (outf : nat) : M unit :=
  data <- resource_string pkg resource_name ;;
  Os.write outf data ;;;
  (if resource_executable && has_fchmod
   then st_mode <- Os.fstat_mode outf ;;
        Os.fchmod outf (Z.lor st_mode Os.S_IXUSR)
   else ret tt) ;;;
  Os.close outf ;;;
  tmp <- Os.name_of outf ;;
  Os.copy tmp resource_path.

Fixpoint _unpack_resource (fuel : nat) (resource_path resource_name : string)
    (resource_executable : bool) : M unit :=
  match fuel with
  | O => raise RecursionError
  | S fuel' =>
      if negb (resource_exists pkg resource_name) then ret tt
      else if resource_isdir pkg resource_name then
        __create_dir resource_path ;;;
        for_each (resource_listdir pkg resource_name)
          (fun f =>
             if bool_decide (f = "") then ret tt
             else _unpack_resource fuel'
                    (Path.join resource_path f) (Path.join resource_name f) false)
      else
        with_MovableTemporaryFile (resource_path +:+ Path.extsep)
          (write_leaf resource_path resource_name resource_executable)
  end.

Definition _get_resource (resource : Resource) : M string :=
  d <- _get_resource_subdir ;;
  resource_path <- os_path_join d (basename resource) ;;
  parent_exists <- Os.path_exists (Path.dirname resource_path) ;;
  (if negb parent_exists then __create_dir (Path.dirname resource_path) else ret tt) ;;;
  present <- Os.path_exists resource_path ;;
  (if negb present
   then _unpack_resource recursion_limit resource_path (name resource) (executable resource)
   else ret tt) ;;;
  ret resource_path.

Definition _unpack_dir (resource_dir dst_dir : string) : M unit :=
  if negb (resource_exists pkg resource_dir) then
    raise (Exception ("Cannot unpack directory: " +:+ resource_dir
                      +:+ " doesn't exist in the package"))
  else if negb (resource_isdir pkg resource_dir) then
    raise (Exception ("Cannot unpack directory: " +:+ resource_dir
                      +:+ " is not a directory"))
  else
    __create_dir dst_dir ;;;
    made <- Os.path_exists dst_dir ;;
    if negb made then
      raise (Exception ("Cannot unpack directory: cannot create directory " +:+ dst_dir))
    else
      for_each (resource_listdir pkg resource_dir)
        (fun resource_file =>
           let resource_path := Path.join dst_dir resource_file in
           present <- Os.path_exists resource_path ;;
           if present then ret tt
           else _unpack_resource recursion_limit resource_path
                  (resource_dir +:+ "/" +:+ resource_file) false).

Definition _unpack_modules : M unit :=
  d <- _get_resource_subdir ;;
  dst <- os_path_join d MODULES_DIR ;;
  _unpack_dir MODULES_DIR dst ;;;
  d' <- _get_resource_subdir ;;
  dst' <- os_path_join d' MODULES_RESOURCES_DIR ;;
  _unpack_dir MODULES_RESOURCES_DIR dst'.

Definition __enter__ : M unit := ret tt.

Definition __exit__ (exc : option exn) : M unit :=
  b <- get_self ;;
  match _lock_file b with
  | Some lock_file =>
      Os.close lock_file ;;;
      modify_self (set_lock_file None)
  | None => ret tt
  end.

(** [with package: body]: [__exit__] runs on every way out of the body and
    returns [None], so an exception of the body goes on to the caller. *)
Definition with_session {A} (body : M A) : M A :=
  __enter__ ;;;
  fun s =>
    match body s with
    | (r, s') =>
        let exc := match r with Raise e => Some e | Ok _ => None end in
        match __exit__ exc s' with
        | (Ok _, s'') => (r, s'')
        | (Raise e, s'') => (Raise e, s'')
        end
    end.

End BuckPackage.

(** * Vocabulary of the properties *)

(** [grows s s']: nothing but the file system differs, and every entry of
    [s] is still there, unchanged, in [s']. *)
Definition grows (s s' : state) : Prop :=
  exists m, s' = mkState (self s) (set_fs (fun _ => m) (os s)) /\ fs (os s) ⊆ m.

(** [frame s s']: the package was not read, no file object was closed, and
    every entry of the file system is still there, unchanged. *)
Definition frame (s s' : state) : Prop :=
  reads (os s') = reads (os s)
  /\ closes (os s') = closes (os s)
  /\ held_elsewhere (os s') = held_elsewhere (os s)
  /\ fs (os s) ⊆ fs (os s').

(** The permission bits an extracted leaf ends up with. *)
Definition leaf_mode (resource_executable has_fchmod : bool) : Z :=
  if resource_executable && has_fchmod then 448 else 384.

(** Where the temporary file of a target is put, for a proposed suffix. *)
Definition temporary_for (path : string) (sfx : string) : string :=
  Path.join Os.tempdir ((path +:+ Path.extsep) +:+ sfx).

(** * A small package and a small machine to run the definitions on *)

Module Example.

(** A server jar, and a directory of modules: a leaf [a] and a directory
    [b] with a leaf [c]; the listing of the modules directory has an entry
    with the empty name, as listings of zipped packages do. *)
Definition pkg : package :=
  mkPackage
    (fun n => bool_decide (n ∈ ["buck_server"; "buck-modules"; "buck-modules/a";
                               "buck-modules/b"; "buck-modules/b/c"]))
    (fun n => bool_decide (n ∈ ["buck-modules"; "buck-modules/b"]))
    (fun n => if bool_decide (n = "buck-modules") then [""; "a"; "b"]
              else if bool_decide (n = "buck-modules/b") then ["c"] else [])
    (fun n => if bool_decide (n = "buck_server") then [x41; x42]
              else if bool_decide (n = "buck-modules/a") then [x61] else [x63]).

Definition json_loads (raw : list Byte.byte) : result (gmap string string) :=
  Ok (<["version" := "abc"]> ∅).

Definition session : BuckPackage := mkBuckPackage "/out/tmp" "v1" None None.

Definition canonical : string := "/out/tmp/resources/v1".

Definition fs0 : gmap string node :=
  <["/" := Dir]> (<["/out" := Dir]> (<["/out/tmp" := Dir]> ∅)).

Definition machine (m : gmap string node) (held : gset string) : os_state :=
  mkOs m [] [] [] [] ["r1"; "r2"; "r3"; "r4"] held.

(** A first run on a clean machine. *)
Definition s0 : state := mkState session (machine fs0 ∅).

(** The same, after the cache directory was located. *)
Definition located : state := snd (_get_resource_subdir s0).

(** Another process holds the lock of the canonical directory. *)
Definition contended : state :=
  mkState session (machine fs0 {[ Path.join canonical file_locks.BUCK_LOCK_FILE_NAME ]}).

(** The lock in the directory the session would take for itself is held
    as well. *)
Definition both_held : state :=
  mkState session
    (machine fs0 {[ Path.join canonical file_locks.BUCK_LOCK_FILE_NAME;
                    "/out/tmp/resources/v1r1/.buck_lock" ]}).

(** The cache of an earlier run is on disk, with the server jar in it. *)
Definition cached : state :=
  mkState session
    (machine (<["/out/tmp/resources/v1/buck_server" := File [x7a] 493]>
               (<["/out/tmp/resources/v1" := Dir]>
                 (<["/out/tmp/resources" := Dir]> fs0))) ∅).

(** The modules directory is on disk with a file [a] that is not the one of
    the package, and with the directory [b] and its file [c]. *)
Definition stale : state :=
  mkState (self located)
    (set_fs (fun m => <["/out/tmp/resources/v1/buck-modules/b/c" := File [x63] 384]>
                       (<["/out/tmp/resources/v1/buck-modules/b" := Dir]>
                         (<["/out/tmp/resources/v1/buck-modules/a" := File [x7a] 493]>
                           (<["/out/tmp/resources/v1/buck-modules" := Dir]> m))))
       (os located)).

End Example.

(** * More of the class, and the vocabulary of its further properties *)

(** [_get_extra_java_args] reads the field [_resource_subdir] itself, not
    through [_get_resource_subdir]; [str.format] on a string is the string. *)
Definition _get_extra_java_args : M (list string) :=
  b <- get_self ;;
  modules_dir <- os_path_join (_resource_subdir b) MODULES_DIR ;;
  module_resources_dir <- os_path_join (_resource_subdir b) "buck-modules-resources" ;;
  ret [ "-Dbuck.git_dirty=0";
        "-Dbuck.path_to_python_dsl=";
        "-Dpf4j.pluginsDir=" +:+ modules_dir;
        "-Dbuck.mode=package";
        "-Dbuck.module.resources=" +:+ module_resources_dir ].

(** The marker file of a cache directory. *)
Definition marker (dir : string) : string :=
  Path.join dir file_locks.BUCK_LOCK_FILE_NAME.

(** [adds_directories s s']: the file system of [s'] is that of [s] with
    directories added at paths that were free; nothing else differs. *)
Definition adds_directories (s s' : state) : Prop :=
  grows s s'
  /\ forall q n, fs (os s') !! q = Some n -> fs (os s) !! q = Some n \/ n = Dir.

(** [extracts pkg md s s']: what an extraction may have done to the
    machine.  The session, the lock attempts and the locks of others are as
    they were; every directory is still a directory and every path that was
    taken is still taken; and a regular file that is new or different holds
    the content of a leaf of the package, with the permission bits [md]. *)
Definition extracts (pkg : package) (md : Z) (s s' : state) : Prop :=
  self s' = self s
  /\ lock_calls (os s') = lock_calls (os s)
  /\ held_elsewhere (os s') = held_elsewhere (os s)
  /\ (forall q, fs (os s) !! q = Some Dir -> fs (os s') !! q = Some Dir)
  /\ (forall q, is_Some (fs (os s) !! q) -> is_Some (fs (os s') !! q))
  /\ (forall q d m, fs (os s') !! q = Some (File d m) ->
        fs (os s) !! q = Some (File d m)
        \/ (m = md
            /\ exists nm, resource_exists pkg nm = true
                          /\ resource_isdir pkg nm = false
                          /\ d = resource_bytes pkg nm)).

(** [io_balanced pkg s s']: the file objects created between [s] and [s']
    have all been closed, in the order of their creation, and the package
    was read once for each of them, each time for a leaf it has. *)
Definition io_balanced (pkg : package) (s s' : state) : Prop :=
  exists (tmps names : list string),
    files (os s') = files (os s) ++ tmps
    /\ closes (os s') = closes (os s) ++ seq (List.length (files (os s))) (List.length tmps)
    /\ reads (os s') = reads (os s) ++ names
    /\ List.length names = List.length tmps
    /\ Forall (fun nm => resource_exists pkg nm = true /\ resource_isdir pkg nm = false) names.

(** A package like that of [Example], with the directory of the resources
    of the modules as well. *)
Definition pkg_with_module_resources : package :=
  mkPackage
    (fun n => bool_decide (n ∈ ["buck_server"; "buck-modules"; "buck-modules/a";
                               "buck-modules-resources"; "buck-modules-resources/r"]))
    (fun n => bool_decide (n ∈ ["buck-modules"; "buck-modules-resources"]))
    (fun n => if bool_decide (n = "buck-modules") then ["a"]
              else if bool_decide (n = "buck-modules-resources") then ["r"] else [])
    (fun n => if bool_decide (n = "buck_server") then [x41; x42]
              else if bool_decide (n = "buck-modules/a") then [x61] else [x72]).

(** * Properties *)

Create HintDb py.

Ltac run_py :=
  unfold bind, ret, raise, get_os, get_self, modify_os, modify_self in *;
  simpl in *.

Lemma bind_inv {A B} (c : M A) (k : A -> M B) s r s' :
  bind c k s = (r, s') ->
  (exists a s1, c s = (Ok a, s1) /\ k a s1 = (r, s'))
  \/ (exists e, c s = (Raise e, s') /\ r = Raise e).
Proof.
  unfold bind. destruct (c s) as [[a | e] s1].
  - intros H. left. by exists a, s1.
  - intros [= <- <-]. right. by exists e.
Qed.

(** ** The states a computation that only adds to the file system can reach *)


Lemma grows_refl s : grows s s.
Proof. exists (fs (os s)). destruct s as [b []]; split; done. Qed.

Lemma grows_trans s1 s2 s3 : grows s1 s2 -> grows s2 s3 -> grows s1 s3.
Proof.
  intros (m & -> & Hm) (m' & -> & Hm'). exists m'. split; [done |].
  simpl in Hm'. by etrans.
Qed.

Lemma grows_insert s p n :
  fs (os s) !! p = None ->
  grows s (mkState (self s) (set_fs (insert p n) (os s))).
Proof. intros H. exists (<[p:=n]> (fs (os s))). split; [done |]. by apply insert_subseteq. Qed.

Lemma grows_self s s' : grows s s' -> self s' = self s.
Proof. by intros (m & -> & _). Qed.

#[local] Hint Resolve grows_refl grows_insert : py.

Ltac split3 := split; [| split].

Lemma check_parent_inv p s r s' :
  Os.check_parent p s = (r, s') ->
  s' = s /\ (r = Ok tt -> fs (os s) !! Path.dirname p = Some Dir)
         /\ r <> Raise (OSError EEXIST).
Proof.
  unfold Os.check_parent, Os.lookup_path. run_py.
  destruct (fs (os s) !! Path.dirname p) as [[] |] eqn:E;
    intros [= <- <-]; split3; congruence.
Qed.

Lemma mkdir_inv p s r s' :
  Os.mkdir p s = (r, s') ->
  grows s s'
  /\ (r = Ok tt -> fs (os s') !! p = Some Dir)
  /\ (r = Raise (OSError EEXIST) -> is_Some (fs (os s') !! p)).
Proof.
  unfold Os.mkdir, Os.lookup_path. run_py.
  destruct (fs (os s) !! p) as [n |] eqn:E.
  - intros [= <- <-]. split3; [auto with py | discriminate | by rewrite E].
  - destruct (Os.check_parent p s) as [[[] |] s1] eqn:Hc;
      apply check_parent_inv in Hc as (-> & _ & Hne); intros [= <- <-].
    + split3; [auto with py | | discriminate].
      intros _. simpl. by rewrite lookup_insert_eq.
    + split3; [auto with py | discriminate | congruence].
Qed.

Lemma makedirs_rec_inv fuel : forall p s r s',
  Os.makedirs_rec fuel p s = (r, s') ->
  grows s s'
  /\ (r = Ok tt -> fs (os s') !! p = Some Dir)
  /\ (r = Raise (OSError EEXIST) -> is_Some (fs (os s') !! p)).
Proof.
  induction fuel as [| fuel IH]; intros p s r s'; simpl.
  - intros [= <- <-]. split3; [auto with py | discriminate ..].
  - unfold bind at 1. unfold Os.path_exists at 1, Os.lookup_path at 1. run_py.
    set (go := _ && _ && _). destruct go.
    + unfold try_except.
      destruct (Os.makedirs_rec fuel (Path.dirname p) s) as [[[] | e] s1] eqn:Hr;
        apply IH in Hr as (Hg & _ & _).
      * intros Hm. apply mkdir_inv in Hm as (Hg' & ? & ?).
        split3; eauto using grows_trans.
      * destruct e as [[] | | | |]; simpl;
          try (intros [= <- <-]; split3; [done | discriminate ..]).
        intros Hm. apply mkdir_inv in Hm as (Hg' & ? & ?).
        split3; eauto using grows_trans.
    + intros Hm. apply mkdir_inv in Hm as (Hg' & ? & ?). split3; auto.
Qed.

Lemma create_dir_inv p s r s' :
  __create_dir p s = (r, s') ->
  grows s s' /\ (r = Ok tt -> is_Some (fs (os s') !! p)).
Proof.
  unfold __create_dir, try_except, Os.makedirs.
  destruct (Os.makedirs_rec _ p s) as [[[] | e] s1] eqn:Hr;
    apply makedirs_rec_inv in Hr as (Hg & Hok & Hex).
  - intros [= <- <-]. split; [done |]. intros _. rewrite Hok; eauto.
  - destruct e as [[] | | | |]; simpl; intros [= <- <-]; split; auto; discriminate.
Qed.

(** [__create_dir] on a path that is there changes nothing and reports no
    error: this is what makes the creation of directories repeatable. *)
Lemma create_dir_present p s :
  is_Some (fs (os s) !! p) ->
  is_Some (fs (os s) !! Path.dirname p) \/ Path.dirname p = "" \/ Path.basename p = "" ->
  __create_dir p s = (Ok tt, s).
Proof.
  intros [n Hn] Hd. unfold __create_dir, try_except, Os.makedirs. simpl.
  unfold bind at 1. unfold Os.path_exists at 1, Os.lookup_path at 1. run_py.
  set (go := _ && _ && _).
  assert (go = false) as ->.
  { subst go. destruct Hd as [Hd | [-> | ->]]; [| done |].
    - rewrite (bool_decide_eq_true_2 _ Hd). simpl. by rewrite andb_false_r.
    - simpl. by rewrite andb_false_r. }
  unfold Os.mkdir, Os.lookup_path. run_py. by rewrite Hn.
Qed.


Lemma frame_refl s : frame s s.
Proof. by unfold frame. Qed.

Lemma frame_trans s1 s2 s3 : frame s1 s2 -> frame s2 s3 -> frame s1 s3.
Proof.
  intros (? & ? & ? & ?) (? & ? & ? & ?). unfold frame.
  split_and!; try congruence. by etrans.
Qed.

Lemma grows_frame s s' : grows s s' -> frame s s'.
Proof. intros (m & -> & Hm). by unfold frame. Qed.

Lemma frame_lookup s s' p n :
  frame s s' -> fs (os s) !! p = Some n -> fs (os s') !! p = Some n.
Proof. intros (_ & _ & _ & Hm) H. by eapply lookup_weaken. Qed.

Lemma lookup_new_file_object (l : list string) p : (l ++ [p]) !! List.length l = Some p.
Proof. by apply list_lookup_middle. Qed.

(** What [try_subdir] does: the directory is there afterwards, exactly one
    lock attempt was made, on the marker file inside it, and the attempt
    fails exactly when another process holds that file. *)
Lemma try_subdir_inv d s r s' :
  try_subdir d s = (r, s') ->
  frame s s' /\ self s' = self s
  /\ rand (os s') = rand (os s)
  /\ forall lf, r = Ok lf ->
       is_Some (fs (os s') !! d)
       /\ lock_calls (os s') =
            lock_calls (os s) ++ [Path.join d file_locks.BUCK_LOCK_FILE_NAME]
       /\ (lf = None <->
             Path.join d file_locks.BUCK_LOCK_FILE_NAME ∈ held_elsewhere (os s)).
Proof.
  unfold try_subdir. unfold bind at 1.
  destruct (__create_dir d s) as [[[] | e] s1] eqn:Hc;
    apply create_dir_inv in Hc as (Hg & Hd).
  2:{ intros [= <- <-]. split_and!; auto using grows_frame, grows_self.
      - by destruct Hg as (m & -> & _).
      - discriminate. }
  specialize (Hd eq_refl). destruct Hg as (m & -> & Hm).
  set (lp := Path.join d file_locks.BUCK_LOCK_FILE_NAME).
  unfold Os.open_append, Os.lookup_path, Os.new_file_object,
    file_locks.acquire_shared_lock, Os.name_of. run_py.
  destruct (m !! lp) as [[dat md |] |] eqn:El; simpl.
  - rewrite lookup_new_file_object. simpl.
    destruct (bool_decide (lp ∈ held_elsewhere (os s))) eqn:Eh; simpl;
      intros [= <- <-]; unfold frame; simpl; split_and!; try done;
      intros lf [= <-]; split_and!; try done.
    + apply bool_decide_eq_true in Eh. done.
    + apply bool_decide_eq_false in Eh. split; [done | intros; done].
  - intros [= <- <-]. unfold frame; simpl; split_and!; try done.
  - destruct (Os.check_parent lp _) as [[[] | e] s1] eqn:Hp;
      apply check_parent_inv in Hp as (-> & _ & _); simpl.
    2:{ intros [= <- <-]. unfold frame; simpl; split_and!; try done. }
    rewrite lookup_new_file_object. simpl.
    assert (m ⊆ <[lp:=File [] 420]> m) by by apply insert_subseteq.
    assert (fs (os s) ⊆ <[lp:=File [] 420]> m) by by etrans.
    assert (is_Some (<[lp:=File [] 420]> m !! d)).
    { destruct Hd as [n Hn]. exists n. by eapply lookup_weaken. }
    destruct (bool_decide (lp ∈ held_elsewhere (os s))) eqn:Eh; simpl;
      intros [= <- <-]; unfold frame; simpl; split_and!; try done;
      intros lf [= <-]; split_and!; try done.
    + apply bool_decide_eq_true in Eh. done.
    + apply bool_decide_eq_false in Eh. split; [done | intros; done].
Qed.

Lemma fresh_name_inv m mk names p rest :
  Os.fresh_name m mk names = Some (p, rest) ->
  m !! p = None /\ exists sfx, sfx ∈ names /\ p = mk sfx.
Proof.
  induction names as [| x names IH]; simpl; [done |].
  destruct (m !! mk x) eqn:E.
  - intros H. destruct (IH H) as (? & sfx & ? & ?).
    split; [done |]. exists sfx. split; [by apply list_elem_of_further | done].
  - intros [= <- <-]. split; [done |]. exists x. split; [apply list_elem_of_here | done].
Qed.

(** [mkdtemp]: a directory that was not there, named by the prefix and one
    of the proposed suffixes. *)
Lemma mkdtemp_inv d pre s r s' :
  Os.mkdtemp d pre s = (r, s') ->
  frame s s' /\ self s' = self s /\ lock_calls (os s') = lock_calls (os s)
  /\ forall p, r = Ok p ->
       fs (os s) !! p = None /\ fs (os s') !! p = Some Dir
       /\ exists sfx, sfx ∈ rand (os s) /\ p = Path.join d (pre +:+ sfx).
Proof.
  unfold Os.mkdtemp, Os.next_fresh. run_py.
  destruct (Os.fresh_name _ _ _) as [[p rest] |] eqn:Ef; simpl.
  2:{ intros [= <- <-]. unfold frame; simpl; split_and!; try done. }
  apply fresh_name_inv in Ef as (Hnone & sfx & Hin & ->).
  set (s1 := mkState _ _).
  destruct (Os.mkdir _ s1) as [[[] | e] s2] eqn:Hm;
    apply mkdir_inv in Hm as (Hg & Hok & _); intros [= <- <-];
    destruct Hg as (m & -> & Hm); unfold frame; simpl in *;
    split_and!; try done.
  intros p [= <-]. split_and!; eauto.
Qed.

(** ** Locating the cache directory *)

Lemma locate_frame s r s' : _get_resource_subdir s = (r, s') -> frame s s'.
Proof.
  unfold _get_resource_subdir, _get_resources_signature, _get_resource_dir. run_py.
  destruct (_resource_subdir (self s)); [intros [= <- <-]; apply frame_refl |].
  destruct (try_subdir _ s) as [[[h |] | e] s1] eqn:H1;
    apply try_subdir_inv in H1 as (F1 & _); simpl;
    try (intros [= <- <-]; exact F1).
  set (s1' := mkState _ _).
  destruct (Os.mkdtemp _ _ s1') as [[d | e] s2] eqn:H2;
    apply mkdtemp_inv in H2 as (F2 & _); simpl.
  2:{ intros [= <- <-]. eapply frame_trans; [exact F1 | exact F2]. }
  destruct (try_subdir d s2) as [[[h |] | e] s3] eqn:H3;
    apply try_subdir_inv in H3 as (F3 & _); simpl;
    intros [= <- <-];
    (eapply frame_trans; [exact F1 | eapply frame_trans; [exact F2 | exact F3]]).
Qed.

(** C3. Within one session locating the cache directory is idempotent: once
    a call has returned a directory, the session remembers it, and every
    later call, whatever has happened to the operating system in between,
    returns that same directory and leaves session and system untouched; in
    particular it makes no further lock attempt. *)
Theorem locate_idempotent s p s1 :
  _get_resource_subdir s = (Ok (Some p), s1) ->
  _resource_subdir (self s1) = Some p
  /\ forall o2,
       _get_resource_subdir (mkState (self s1) o2) = (Ok (Some p), mkState (self s1) o2)
       /\ lock_calls (os (snd (_get_resource_subdir (mkState (self s1) o2)))) = lock_calls o2.
Proof.
  intros H.
  assert (_resource_subdir (self s1) = Some p) as Hm.
  { unfold _get_resource_subdir in H.
    apply bind_inv in H as [(b & s0 & _ & H) | (e & _ & ?)]; [| done].
    apply bind_inv in H as [([] & s2 & _ & H) | (e & _ & ?)]; [| done].
    run_py. congruence. }
  split; [done |]. intros o2.
  assert (_get_resource_subdir (mkState (self s1) o2)
          = (Ok (Some p), mkState (self s1) o2)) as ->.
  { unfold _get_resource_subdir. run_py. rewrite Hm. run_py. by rewrite ?Hm. }
  done.
Qed.

(** C5. The lock of the canonical directory is held by another process:
    the session then takes a directory of its own under the resource
    directory, named by the signature followed by a suffix, which was not
    there before and so is not the canonical directory, and tries the lock
    inside it, once.  With that lock the directory is the result; without
    it the call raises and nothing more is tried. *)
Theorem locate_fallback s lf0 s1 d s2 lf s3 :
  let resource_dir := Path.join (_buck_out_tmp (self s)) "resources" in
  let signature := _resources_signature (self s) in
  let canonical := Path.join resource_dir signature in
  let marker dir := Path.join dir file_locks.BUCK_LOCK_FILE_NAME in
  _resource_subdir (self s) = None ->
  marker canonical ∈ held_elsewhere (os s) ->
  try_subdir canonical s = (Ok lf0, s1) ->
  Os.mkdtemp resource_dir signature (mkState (set_lock_file None (self s)) (os s1))
    = (Ok d, s2) ->
  try_subdir d s2 = (Ok lf, s3) ->
  d <> canonical
  /\ (exists sfx, sfx ∈ rand (os s) /\ d = Path.join resource_dir (signature +:+ sfx))
  /\ fs (os s1) !! d = None
  /\ fs (os s2) !! d = Some Dir
  /\ lock_calls (os s3) = lock_calls (os s) ++ [marker canonical; marker d]
  /\ (lf = None <-> marker d ∈ held_elsewhere (os s))
  /\ _get_resource_subdir s =
       match lf with
       | Some h =>
           (Ok (Some d),
            mkState (set_resource_subdir (Some d) (set_lock_file (Some h) (self s))) (os s3))
       | None =>
           (Raise (Exception ("Could not acquire lock in fresh tmp dir: " +:+ d)),
            mkState (set_lock_file None (self s)) (os s3))
       end.
Proof.
  intros resource_dir signature canonical marker Hnone Hheld H1 H2 H3.
  pose proof (try_subdir_inv _ _ _ _ H1) as (F1 & Hs1 & Hr1 & Hl1).
  destruct (Hl1 _ eq_refl) as (Hcan & Hcalls1 & Hlf0).
  assert (lf0 = None) as -> by by apply Hlf0.
  pose proof (mkdtemp_inv _ _ _ _ _ H2) as (F2 & Hs2 & Hcalls2 & Hd).
  destruct (Hd _ eq_refl) as (Hfresh & Hdir & sfx & Hsfx & Hname). simpl in *.
  pose proof (try_subdir_inv _ _ _ _ H3) as (F3 & Hs3 & Hr3 & Hl3).
  destruct (Hl3 _ eq_refl) as (_ & Hcalls3 & Hlf).
  split_and!.
  - intros ->. rewrite Hfresh in Hcan. by destruct Hcan.
  - exists sfx. split; [by rewrite <- Hr1 | done].
  - done.
  - done.
  - rewrite Hcalls3, Hcalls2. simpl. rewrite Hcalls1. by rewrite <- app_assoc.
  - rewrite Hlf. destruct F2 as (_ & _ & -> & _). simpl.
    by destruct F1 as (_ & _ & -> & _).
  - unfold _get_resource_subdir, _get_resources_signature, _get_resource_dir. run_py.
    rewrite Hnone. fold resource_dir signature canonical. rewrite H1. simpl.
    rewrite Hs1. rewrite H2. rewrite H3.
    rewrite Hs3, Hs2. by destruct lf.
Qed.

(** ** The version of the package *)


(** ** Leaving the session *)

(** C9. Whatever way the body of the session ends, with a value or with an
    exception, a lock file the session holds at that point is closed by the
    exit handler, once, the field is cleared, and the outcome of the body is
    the outcome of the session.  The exit handler run again after that does
    nothing at all. *)
Theorem exit_closes_once {A} (body : M A) s r s' h :
  body s = (r, s') ->
  _lock_file (self s') = Some h ->
  let s'' := mkState (set_lock_file None (self s'))
               (set_closes (fun l => l ++ [h]) (os s')) in
  with_session body s = (r, s'')
  /\ _lock_file (self s'') = None
  /\ closes (os s'') = closes (os s') ++ [h]
  /\ forall exc, __exit__ exc s'' = (Ok tt, s'').
Proof.
  intros Hb Hh s''. split_and!; try done.
  unfold with_session, __enter__, __exit__, Os.close. run_py.
  rewrite Hb. simpl. rewrite Hh. by destruct r.
Qed.

(** ** Extracting a leaf *)

Lemma os_state_ext (o o' : os_state) :
  fs o = fs o' -> files o = files o' -> closes o = closes o' ->
  lock_calls o = lock_calls o' -> reads o = reads o' -> rand o = rand o' ->
  held_elsewhere o = held_elsewhere o' -> o = o'.
Proof. destruct o, o'; simpl; by intros -> -> -> -> -> -> ->. Qed.

Lemma append_neq (a b d : string) c : (a +:+ String c b) +:+ d <> a.
Proof. induction a as [| x a IH]; simpl; [done |]. intros [= H]. by apply IH. Qed.

(** The temporary file, wherever it is put, is not the target itself. *)
Lemma temporary_name_neq path sfx :
  Path.join Os.tempdir ((path +:+ Path.extsep) +:+ sfx) <> path.
Proof.
  unfold Path.join. destruct (Path.starts_with_sep _) eqn:E'; [apply append_neq |].
  simpl. intros H. rewrite <- H in E'. by vm_compute in E'.
Qed.



(** Extraction of a leaf, from beginning to end: with a free temporary name
    at hand, the directories of the temporary file and of the target in
    place, and no directory sitting at the target, the package is read once
    and the target holds its bytes. *)
Lemma unpack_leaf pkg has_fchmod fuel path name exe s tmp rest :
  resource_exists pkg name = true ->
  resource_isdir pkg name = false ->
  Os.fresh_name (fs (os s)) (temporary_for path) (rand (os s)) = Some (tmp, rest) ->
  fs (os s) !! Path.dirname tmp = Some Dir ->
  fs (os s) !! Path.dirname path = Some Dir ->
  fs (os s) !! path <> Some Dir ->
  _unpack_resource pkg has_fchmod (S fuel) path name exe s =
    (Ok tt,
     mkState (self s)
       (mkOs (<[path := File (resource_bytes pkg name) (leaf_mode exe has_fchmod)]> (fs (os s)))
          (files (os s) ++ [tmp])
          (closes (os s) ++ [List.length (files (os s))])
          (lock_calls (os s))
          (reads (os s) ++ [name])
          rest
          (held_elsewhere (os s)))).
Proof.
  intros Hex Hdir Hfresh Htmpdir Hpardir Hnotdir.
  pose proof (fresh_name_inv _ _ _ _ _ Hfresh) as (Hfree & sfx & _ & Htmp).
  assert (tmp <> path) as Hne by (rewrite Htmp; apply temporary_name_neq).
  assert (Path.dirname path <> tmp) as Hne' by congruence.
  assert (Path.dirname tmp <> tmp) as Hne'' by congruence.
  simpl. rewrite Hex, Hdir. simpl.
  unfold with_MovableTemporaryFile, Os.NamedTemporaryFile, Os.next_fresh.
  unfold bind at 1. unfold bind at 1. unfold bind at 1. unfold get_os at 1.
  fold (temporary_for path). rewrite Hfresh.
  unfold Os.check_parent, Os.lookup_path, Os.new_file_object, finally, write_leaf,
    resource_string, Os.write, Os.fstat_mode, Os.fchmod, Os.close, Os.name_of,
    Os.read_file, Os.copy, Os.remove, Os.lookup_path.
  run_py. rewrite Htmpdir. simpl. rewrite lookup_new_file_object. simpl.
  rewrite lookup_insert_eq. simpl.
  unfold leaf_mode in *.
  destruct (fs (os s) !! path) as [[dat md |] |] eqn:Ep; [| done |];
    destruct (exe && has_fchmod); simpl;
    repeat (first [ rewrite lookup_new_file_object
                  | rewrite lookup_insert_eq
                  | rewrite lookup_insert_ne by done
                  | rewrite insert_insert_eq
                  | rewrite Ep
                  | rewrite Hpardir
                  | progress unfold Os.read_file, Os.check_parent, Os.lookup_path ];
            run_py).
  all: try change (Z.land (Z.lor (Z.lor Os.S_IFREG 384) Os.S_IXUSR) 4095) with 448.
  all: do 2 f_equal; apply os_state_ext; simpl; try done.
  all: apply map_eq; intros q.
  all: destruct (decide (q = tmp)) as [-> |]; [by simplify_map_eq |].
  all: destruct (decide (q = path)) as [-> |]; by simplify_map_eq.
Qed.

(** C8. Round trip of a leaf: after its extraction the target is a file
    whose content, read back, is byte for byte what the package read API
    gives for the resource name; the package was read once, for that name. *)
Theorem leaf_round_trip pkg has_fchmod fuel path nm exe s tmp rest :
  resource_exists pkg nm = true ->
  resource_isdir pkg nm = false ->
  Os.fresh_name (fs (os s)) (temporary_for path) (rand (os s)) = Some (tmp, rest) ->
  fs (os s) !! Path.dirname tmp = Some Dir ->
  fs (os s) !! Path.dirname path = Some Dir ->
  fs (os s) !! path <> Some Dir ->
  forall r s', _unpack_resource pkg has_fchmod (S fuel) path nm exe s = (r, s') ->
  r = Ok tt
  /\ (exists mode,
        Os.read_file path s' = (Ok (resource_bytes pkg nm, mode), s')
        /\ fst (resource_string pkg nm s') = Ok (resource_bytes pkg nm))
  /\ reads (os s') = reads (os s) ++ [nm].
Proof.
  intros Hex Hdir Hfresh Htmp Hpar Hnd r s' Hrun.
  rewrite (unpack_leaf _ _ _ _ _ _ _ _ _ Hex Hdir Hfresh Htmp Hpar Hnd) in Hrun.
  injection Hrun as <- <-. split3; [done | | done].
  exists (leaf_mode exe has_fchmod). split; [| done].
  unfold Os.read_file, Os.lookup_path. run_py. by rewrite lookup_insert_eq.
Qed.

(** C7. The permission bits of an extracted leaf: the owner-execute bit is
    set when the descriptor asks for it and the platform has [fchmod]; when
    the descriptor does not ask for it, no execute bit is set at all, for
    owner, group or others. *)
Theorem leaf_executable_bit pkg has_fchmod fuel path nm exe s tmp rest :
  resource_exists pkg nm = true ->
  resource_isdir pkg nm = false ->
  Os.fresh_name (fs (os s)) (temporary_for path) (rand (os s)) = Some (tmp, rest) ->
  fs (os s) !! Path.dirname tmp = Some Dir ->
  fs (os s) !! Path.dirname path = Some Dir ->
  fs (os s) !! path <> Some Dir ->
  forall r s', _unpack_resource pkg has_fchmod (S fuel) path nm exe s = (r, s') ->
  r = Ok tt
  /\ exists data mode,
       fs (os s') !! path = Some (File data mode)
       /\ (exe = true -> has_fchmod = true ->
             Z.testbit mode 6 = true /\ Z.land mode Os.S_IXUSR = Os.S_IXUSR)
       /\ (exe = false -> Z.land mode 73 = 0).
Proof.
  intros Hex Hdir Hfresh Htmp Hpar Hnd r s' Hrun.
  rewrite (unpack_leaf _ _ _ _ _ _ _ _ _ Hex Hdir Hfresh Htmp Hpar Hnd) in Hrun.
  injection Hrun as <- <-. split; [done |].
  exists (resource_bytes pkg nm), (leaf_mode exe has_fchmod). simpl.
  rewrite lookup_insert_eq. split3; [done | |].
  - by intros -> ->.
  - by intros ->.
Qed.

(** ** A resource that is already there *)

(** C4. The target of a resource is on disk, in a directory that is there:
    [_get_resource] returns its path and does nothing beyond locating the
    cache directory.  The package is not read, and the entry at the target,
    content and permission bits, is what it was. *)
Theorem get_resource_present pkg has_fchmod limit r s d s1 n :
  _get_resource_subdir s = (Ok (Some d), s1) ->
  let target := Path.join d (basename r) in
  fs (os s) !! target = Some n ->
  is_Some (fs (os s) !! Path.dirname target) ->
  _get_resource pkg has_fchmod limit r s = (Ok target, s1)
  /\ reads (os s1) = reads (os s)
  /\ fs (os s1) !! target = Some n.
Proof.
  intros Hloc target Hn [n' Hpar].
  pose proof (locate_frame _ _ _ Hloc) as F.
  pose proof (frame_lookup _ _ _ _ F Hn) as Hn1.
  pose proof (frame_lookup _ _ _ _ F Hpar) as Hpar1.
  split3; [| by destruct F | done].
  unfold _get_resource. unfold bind at 1. rewrite Hloc.
  unfold os_path_join, Os.path_exists, Os.lookup_path. run_py.
  subst target. rewrite Hpar1. simpl. by rewrite Hn1.
Qed.

(** ** A resource that is not in the package *)

(** C1, as the code has it.  For a name the package does not have,
    [_unpack_resource] returns at once and touches nothing; [_get_resource]
    therefore returns the target path, without an error and without
    anything at the target; only [_unpack_dir] raises, before it touches
    the file system. *)
Theorem missing_resource pkg has_fchmod nm :
  resource_exists pkg nm = false ->
  (forall fuel path exe s,
     _unpack_resource pkg has_fchmod (S fuel) path nm exe s = (Ok tt, s))
  /\ (forall limit r s d s1,
        name r = nm ->
        _get_resource_subdir s = (Ok (Some d), s1) ->
        let target := Path.join d (basename r) in
        fs (os s1) !! target = None ->
        is_Some (fs (os s1) !! Path.dirname target) ->
        _get_resource pkg has_fchmod (S limit) r s = (Ok target, s1))
  /\ (forall limit dst s,
        _unpack_dir pkg has_fchmod limit nm dst s =
          (Raise (Exception ("Cannot unpack directory: " +:+ nm
                             +:+ " doesn't exist in the package")), s)).
Proof.
  intros Hex. split3.
  - intros fuel path exe s. simpl. by rewrite Hex.
  - intros limit r s d s1 <- Hloc target Hnone [n Hpar].
    unfold _get_resource. unfold bind at 1. rewrite Hloc.
    unfold os_path_join, Os.path_exists, Os.lookup_path. run_py.
    subst target. rewrite Hpar. simpl. rewrite Hnone. simpl. by rewrite Hex.
  - intros limit dst s. unfold _unpack_dir. by rewrite Hex.
Qed.

(** ** Directories *)






(** * Runs on the small machine *)

Lemma run_eq {A} (c : M A) s : c s = (fst (c s), snd (c s)).
Proof. by destruct (c s). Qed.

(** The first call creates and locks the canonical directory; a later call,
    on any machine, answers from the session. *)
Lemma locate_idempotent_witness :
  _resource_subdir (self Example.located) = Some Example.canonical
  /\ forall o2,
       _get_resource_subdir (mkState (self Example.located) o2)
         = (Ok (Some Example.canonical), mkState (self Example.located) o2)
       /\ lock_calls (os (snd (_get_resource_subdir (mkState (self Example.located) o2))))
          = lock_calls o2.
Proof.
  apply (locate_idempotent Example.s0 Example.canonical Example.located).
  vm_compute. reflexivity.
Defined.

(** With the canonical lock held elsewhere the session ends up in
    [v1r1], after two lock attempts. *)
Lemma locate_fallback_witness :
  let canonical := Example.canonical in
  let d := "/out/tmp/resources/v1r1" in
  let marker dir := Path.join dir file_locks.BUCK_LOCK_FILE_NAME in
  let s1 := snd (try_subdir canonical Example.contended) in
  let s2 := snd (Os.mkdtemp "/out/tmp/resources" "v1"
                   (mkState (set_lock_file None Example.session) (os s1))) in
  let s3 := snd (try_subdir d s2) in
  d <> canonical
  /\ (exists sfx, sfx ∈ rand (os Example.contended)
                  /\ d = Path.join "/out/tmp/resources" ("v1" +:+ sfx))
  /\ fs (os s1) !! d = None
  /\ fs (os s2) !! d = Some Dir
  /\ lock_calls (os s3) = lock_calls (os Example.contended) ++ [marker canonical; marker d]
  /\ (Some 1%nat = None <-> marker d ∈ held_elsewhere (os Example.contended))
  /\ _get_resource_subdir Example.contended =
       (Ok (Some d),
        mkState (set_resource_subdir (Some d) (set_lock_file (Some 1%nat) Example.session))
          (os s3)).
Proof.
  intros canonical d marker s1 s2 s3.
  apply (locate_fallback Example.contended None s1 d s2 (Some 1%nat) s3).
  - reflexivity.
  - simpl. apply elem_of_singleton_2. reflexivity.
  - vm_compute. reflexivity.
  - vm_compute. reflexivity.
  - vm_compute. reflexivity.
Defined.


(** A session whose body locates the cache directory and then fails: the
    exception reaches the caller, the lock file is closed once. *)
Lemma exit_closes_once_witness :
  let body : M unit := _get_resource_subdir ;;; raise (Exception "boom") in
  let s' := snd (body Example.s0) in
  let s'' := mkState (set_lock_file None (self s'))
               (set_closes (fun l => l ++ [0%nat]) (os s')) in
  with_session body Example.s0 = (Raise (Exception "boom"), s'')
  /\ _lock_file (self s'') = None
  /\ closes (os s'') = closes (os s') ++ [0%nat]
  /\ forall exc, __exit__ exc s'' = (Ok tt, s'').
Proof.
  intros body s'.
  apply (exit_closes_once body Example.s0 (Raise (Exception "boom")) s' 0%nat).
  - vm_compute. reflexivity.
  - vm_compute. reflexivity.
Defined.

(** Without the lock of its own directory either, the call raises after the
    second attempt. *)
Example locate_fallback_fatal :
  fst (_get_resource_subdir Example.both_held)
    = Raise (Exception "Could not acquire lock in fresh tmp dir: /out/tmp/resources/v1r1")
  /\ lock_calls (os (snd (_get_resource_subdir Example.both_held)))
     = ["/out/tmp/resources/v1/.buck_lock"; "/out/tmp/resources/v1r1/.buck_lock"]
  /\ _resource_subdir (self (snd (_get_resource_subdir Example.both_held))) = None.
Proof. vm_compute. split_and!; reflexivity. Qed.

(** Extraction of the server jar, asked to be executable, into the located
    cache directory. *)
Lemma leaf_round_trip_witness :
  let path := "/out/tmp/resources/v1/buck_server" in
  let run := _unpack_resource Example.pkg true 1 path "buck_server" true Example.located in
  fst run = Ok tt
  /\ (exists mode,
        Os.read_file path (snd run) = (Ok ([x41; x42], mode), snd run)
        /\ fst (resource_string Example.pkg "buck_server" (snd run)) = Ok [x41; x42])
  /\ reads (os (snd run)) = reads (os Example.located) ++ ["buck_server"].
Proof.
  intros path run.
  apply (leaf_round_trip Example.pkg true 0 path "buck_server" true Example.located
           "/out/tmp/resources/v1/buck_server.r1" ["r2"; "r3"; "r4"]).
  - reflexivity.
  - reflexivity.
  - vm_compute. reflexivity.
  - vm_compute. reflexivity.
  - vm_compute. reflexivity.
  - vm_compute. discriminate.
  - apply run_eq.
Defined.

Lemma leaf_executable_bit_witness :
  let path := "/out/tmp/resources/v1/buck_server" in
  let run := _unpack_resource Example.pkg true 1 path "buck_server" true Example.located in
  fst run = Ok tt
  /\ exists data mode,
       fs (os (snd run)) !! path = Some (File data mode)
       /\ (true = true -> true = true ->
             Z.testbit mode 6 = true /\ Z.land mode Os.S_IXUSR = Os.S_IXUSR)
       /\ (true = false -> Z.land mode 73 = 0).
Proof.
  intros path run.
  apply (leaf_executable_bit Example.pkg true 0 path "buck_server" true Example.located
           "/out/tmp/resources/v1/buck_server.r1" ["r2"; "r3"; "r4"]).
  - reflexivity.
  - reflexivity.
  - vm_compute. reflexivity.
  - vm_compute. reflexivity.
  - vm_compute. reflexivity.
  - vm_compute. discriminate.
  - apply run_eq.
Defined.

(** The server jar of an earlier run is found and left alone. *)
Lemma get_resource_present_witness :
  let r := mkResource "buck_server" true "buck_server" in
  let target := "/out/tmp/resources/v1/buck_server" in
  let s1 := snd (_get_resource_subdir Example.cached) in
  _get_resource Example.pkg true 1000 r Example.cached = (Ok target, s1)
  /\ reads (os s1) = reads (os Example.cached)
  /\ fs (os s1) !! target = Some (File [x7a] 493).
Proof.
  intros r target s1.
  apply (get_resource_present Example.pkg true 1000 r Example.cached Example.canonical s1).
  - vm_compute. reflexivity.
  - vm_compute. reflexivity.
  - exists Dir. vm_compute. reflexivity.
Defined.

(** A descriptor for a name the package does not have. *)
Lemma missing_resource_witness :
  let r := mkResource "nope" false "nope" in
  _unpack_resource Example.pkg true 1 "/out/tmp/resources/v1/nope" "nope" false Example.located
    = (Ok tt, Example.located)
  /\ _get_resource Example.pkg true 1000 r Example.s0
     = (Ok "/out/tmp/resources/v1/nope", Example.located)
  /\ fs (os Example.located) !! "/out/tmp/resources/v1/nope" = None
  /\ _unpack_dir Example.pkg true 1000 "nope" "/out/tmp/resources/v1/nope" Example.located
     = (Raise (Exception "Cannot unpack directory: nope doesn't exist in the package"),
        Example.located).
Proof.
  intros r.
  destruct (missing_resource Example.pkg true "nope" eq_refl) as (H1 & H2 & H3).
  split_and!.
  - apply H1.
  - apply (H2 999%nat r Example.s0 Example.canonical Example.located).
    + reflexivity.
    + vm_compute. reflexivity.
    + vm_compute. reflexivity.
    + exists Dir. vm_compute. reflexivity.
  - vm_compute. reflexivity.
  - apply H3.
Defined.

(** C1 as stated fails: asking for a resource the package does not have
    ends without any error. *)
Lemma missing_resource_raises_nothing :
  resource_exists Example.pkg "nope" = false
  /\ ~ exists e,
         fst (_get_resource Example.pkg true 1000 (mkResource "nope" false "nope") Example.s0)
         = Raise e.
Proof.
  split; [reflexivity |]. intros [e He]. vm_compute in He. discriminate.
Qed.


(** The listing [""; "a"; "b"] of the example is handled as ["a"; "b"]. *)
Example listing_without_empty_names :
  filter (fun f => f <> "") (resource_listdir Example.pkg "buck-modules") = ["a"; "b"].
Proof. reflexivity. Qed.


(** [_unpack_dir] on the same machine finds [a] and [b] and changes
    nothing. *)
Example unpack_dir_keeps_stale_child :
  _unpack_dir Example.pkg true 1000 "buck-modules"
    "/out/tmp/resources/v1/buck-modules" Example.stale = (Ok tt, Example.stale).
Proof. vm_compute. reflexivity. Qed.


(** * Further properties of the class *)

(** ** The version *)

(** X1. [has_fake_version] answers whether the override key holds a
    non-empty string, and that answer decides what [get_buck_version] does:
    with [True] it returns what [get_fake_version] returns and leaves the
    package alone, whatever the package holds; with [False] it reads the
    package information, once, whatever comes of it. *)
Theorem has_fake_version_decides pkg (environ : gmap string string) json_loads s :
  exists b,
    has_fake_version environ s = (Ok b, s)
    /\ (b = true <-> exists v, environ !! BUCK_FAKE_VERSION_ENV = Some v /\ v <> "")
    /\ (b = true ->
          get_buck_version pkg environ json_loads s = get_fake_version environ "" s)
    /\ (b = false ->
          snd (get_buck_version pkg environ json_loads s)
          = mkState (self s) (set_reads (fun l => l ++ ["buck_package_info"]) (os s))).
Proof.
  unfold has_fake_version, get_buck_version, get_fake_version, _get_package_info,
    resource_string. run_py.
  destruct (environ !! BUCK_FAKE_VERSION_ENV) as [v |] eqn:E; simpl.
  - destruct (decide (v = "")) as [-> | Hv].
    + exists false. split_and!; try done.
      * split; [done |]. by intros (v & [= <-] & ?).
      * intros _. simpl. destruct (json_loads _) as [info | e]; simpl; [| done].
        by destruct (info !! "version").
    + exists true. rewrite bool_decide_eq_false_2 by done. split_and!; try done.
      split; [| done]. intros _. by exists v.
  - exists false. split_and!; try done.
    + split; [done |]. by intros (v & [=] & ?).
    + intros _. destruct (json_loads _) as [info | e]; simpl; [| done].
      by destruct (info !! "version").
Qed.


(** ** More on locating the cache directory *)

Lemma try_subdir_handle d s h s' :
  try_subdir d s = (Ok (Some h), s') ->
  h = List.length (files (os s))
  /\ files (os s') = files (os s) ++ [marker d]
  /\ exists dat m, fs (os s') !! marker d = Some (File dat m).
Proof.
  unfold try_subdir. unfold bind at 1.
  destruct (__create_dir d s) as [[[] | e] s1] eqn:Hc; [| done].
  apply create_dir_inv in Hc as ((m & -> & Hm) & _).
  fold (marker d).
  unfold Os.open_append, Os.lookup_path, Os.new_file_object,
    file_locks.acquire_shared_lock, Os.name_of. run_py.
  destruct (m !! marker d) as [[dat md |] |] eqn:El; simpl; [| done |].
  - rewrite lookup_new_file_object. simpl.
    destruct (bool_decide _); simpl; intros [= <- <-]; simpl; eauto.
  - destruct (Os.check_parent (marker d) _) as [[[] | e] s1] eqn:Hp;
      apply check_parent_inv in Hp as (-> & _ & _); simpl; [| done].
    rewrite lookup_new_file_object. simpl.
    destruct (bool_decide _); simpl; intros [= <- <-]; simpl.
    split_and!; try done. eexists _, _. by rewrite lookup_insert_eq.
Qed.

Lemma mkdtemp_rand d pre s r s' :
  Os.mkdtemp d pre s = (r, s') -> held_elsewhere (os s') = held_elsewhere (os s).
Proof. intros H. apply mkdtemp_inv in H as ((_ & _ & ? & _) & _). done. Qed.

(** What a call of [_get_resource_subdir] on a session that has no
    directory yet comes to, in every case. *)
Lemma locate_cases s r s' :
  _resource_subdir (self s) = None ->
  _get_resource_subdir s = (r, s') ->
  _buck_out_tmp (self s') = _buck_out_tmp (self s)
  /\ _resources_signature (self s') = _resources_signature (self s)
  /\ ((exists e, r = Raise e /\ _resource_subdir (self s') = None)
      \/ (exists dir h dat m,
            r = Ok (Some dir)
            /\ _resource_subdir (self s') = Some dir
            /\ _lock_file (self s') = Some h
            /\ files (os s') !! h = Some (marker dir)
            /\ is_Some (fs (os s') !! dir)
            /\ fs (os s') !! marker dir = Some (File dat m)
            /\ marker dir ∉ held_elsewhere (os s'))).
Proof.
  intros Hnone.
  unfold _get_resource_subdir, _get_resources_signature, _get_resource_dir. run_py.
  rewrite Hnone.
  set (rd := Path.join (_buck_out_tmp (self s)) "resources").
  set (canonical := Path.join rd (_resources_signature (self s))).
  destruct (try_subdir canonical s) as [[[h |] | e] s1] eqn:H1; simpl.
  - pose proof (try_subdir_handle _ _ _ _ H1) as (-> & Hf & dat & m & Hl).
    apply try_subdir_inv in H1 as (F1 & Hs1 & _ & Hlf).
    destruct (Hlf _ eq_refl) as (Hdir & _ & Hheld).
    intros [= <- <-]. simpl. rewrite Hs1. split_and!; try done.
    right. exists canonical, (List.length (files (os s))), dat, m.
    split_and!; try done.
    + rewrite Hf. apply lookup_new_file_object.
    + destruct F1 as (_ & _ & -> & _). intros Hin. apply Hheld in Hin. done.
  - apply try_subdir_inv in H1 as (F1 & Hs1 & _ & _).
    set (s1' := mkState _ _).
    destruct (Os.mkdtemp rd _ s1') as [[d | e] s2] eqn:H2; simpl.
    2:{ apply mkdtemp_inv in H2 as (_ & Hs2 & _). intros [= <- <-].
        rewrite Hs2. simpl. rewrite Hs1. split_and!; try done. left. eauto. }
    pose proof (mkdtemp_rand _ _ _ _ _ H2) as Hh2.
    apply mkdtemp_inv in H2 as (_ & Hs2 & _).
    destruct (try_subdir d s2) as [[[h |] | e] s3] eqn:H3; simpl.
    + pose proof (try_subdir_handle _ _ _ _ H3) as (-> & Hf & dat & m & Hl).
      apply try_subdir_inv in H3 as (F3 & Hs3 & _ & Hlf).
      destruct (Hlf _ eq_refl) as (Hdir & _ & Hheld).
      intros [= <- <-]. simpl. rewrite Hs3, Hs2. simpl. rewrite Hs1.
      split_and!; try done.
      right. exists d, (List.length (files (os s2))), dat, m.
      split_and!; try done.
      * rewrite Hf. apply lookup_new_file_object.
      * destruct F3 as (_ & _ & -> & _). intros Hin. apply Hheld in Hin. done.
    + apply try_subdir_inv in H3 as (_ & Hs3 & _). intros [= <- <-]. simpl.
      rewrite Hs3, Hs2. simpl. rewrite Hs1. split_and!; try done. left. eauto.
    + apply try_subdir_inv in H3 as (_ & Hs3 & _). intros [= <- <-]. simpl.
      rewrite Hs3, Hs2. simpl. rewrite Hs1. split_and!; try done. left. eauto.
  - apply try_subdir_inv in H1 as (_ & Hs1 & _). intros [= <- <-].
    rewrite Hs1. split_and!; try done. left. eauto.
Qed.

(** X3. What a session has after it located its cache directory for the
    first time: the directory is on disk and remembered, the marker file
    inside it is a regular file that no other process holds, the session's
    lock file is a file object on that marker, and [_get_resource_lock_path]
    names it. *)
Theorem locate_postcondition s d s' :
  _resource_subdir (self s) = None ->
  _get_resource_subdir s = (Ok d, s') ->
  exists dir h dat m,
    d = Some dir
    /\ _resource_subdir (self s') = Some dir
    /\ _lock_file (self s') = Some h
    /\ files (os s') !! h = Some (marker dir)
    /\ is_Some (fs (os s') !! dir)
    /\ fs (os s') !! marker dir = Some (File dat m)
    /\ (marker dir ∉ held_elsewhere (os s'))
    /\ _get_resource_lock_path s' = (Ok (marker dir), s').
Proof.
  intros Hnone H.
  destruct (locate_cases _ _ _ Hnone H) as (_ & _ & [(e & ? & _) | Hok]); [done |].
  destruct Hok as (dir & h & dat & m & [= ->] & Hmemo & Hlock & Hfile & Hdir & Hmark & Hfree).
  exists dir, h, dat, m. split_and!; try done.
  unfold _get_resource_lock_path, _get_resource_subdir, os_path_join. run_py.
  rewrite Hmemo. run_py. by rewrite Hmemo.
Qed.

(** X4. A call of [_get_resource_subdir] that raises leaves the session
    without a directory, so that the next call starts from the beginning;
    the file objects it opened on marker files are not closed by it, and
    nothing that was on disk is altered. *)
Theorem locate_failure_not_remembered s e s' :
  _resource_subdir (self s) = None ->
  _get_resource_subdir s = (Raise e, s') ->
  _resource_subdir (self s') = None
  /\ closes (os s') = closes (os s)
  /\ (fs (os s) ⊆ fs (os s')).
Proof.
  intros Hnone H.
  pose proof (locate_frame _ _ _ H) as (_ & Hc & _ & Hfs).
  destruct (locate_cases _ _ _ Hnone H) as (_ & _ & [(e' & _ & ?) | Hok]).
  - done.
  - by destruct Hok as (? & ? & ? & ? & ? & _).
Qed.

(** X5. Locating only adds: it never reads the package, closes no file
    object, changes no entry that is on disk, and leaves the session's
    [_buck_out_tmp] and signature alone; on a session that has a directory
    it changes nothing at all. *)
Theorem locate_only_adds s r s' :
  _get_resource_subdir s = (r, s') ->
  reads (os s') = reads (os s)
  /\ closes (os s') = closes (os s)
  /\ (forall p n, fs (os s) !! p = Some n -> fs (os s') !! p = Some n)
  /\ _buck_out_tmp (self s') = _buck_out_tmp (self s)
  /\ _resources_signature (self s') = _resources_signature (self s)
  /\ (is_Some (_resource_subdir (self s)) -> s' = s /\ r = Ok (_resource_subdir (self s))).
Proof.
  intros H. pose proof (locate_frame _ _ _ H) as (Hr & Hc & _ & Hfs).
  destruct (_resource_subdir (self s)) as [d |] eqn:Hm.
  - revert H. unfold _get_resource_subdir. run_py. rewrite Hm. run_py. rewrite Hm.
    intros [= <- <-]. split_and!; try done.
  - destruct (locate_cases _ _ _ Hm H) as (? & ? & _).
    split_and!; try done.
    intros p n Hp. by eapply lookup_weaken.
Qed.

(** X6. The exit handler forgets the lock file but not the directory: after
    it, [_get_resource_subdir] still answers with the directory of the
    session, without holding or trying any lock. *)
Theorem exit_keeps_directory s d exc :
  _resource_subdir (self s) = Some d ->
  exists s1,
    __exit__ exc s = (Ok tt, s1)
    /\ _lock_file (self s1) = None
    /\ lock_calls (os s1) = lock_calls (os s)
    /\ fs (os s1) = fs (os s)
    /\ _get_resource_subdir s1 = (Ok (Some d), s1).
Proof.
  intros Hm. unfold __exit__, Os.close. run_py.
  destruct (_lock_file (self s)) as [h |] eqn:Hl; simpl; eexists;
    (split; [reflexivity |]); simpl; split_and!; try done;
    unfold _get_resource_subdir; run_py; rewrite Hm; run_py; by rewrite ?Hm.
Qed.

(** ** Creating directories *)

Lemma grows_keeps s s' p n :
  grows s s' -> fs (os s) !! p = Some n -> fs (os s') !! p = Some n.
Proof. intros G. by apply frame_lookup, grows_frame. Qed.

Lemma adds_directories_refl s : adds_directories s s.
Proof. split; [apply grows_refl | auto]. Qed.

Lemma adds_directories_trans s1 s2 s3 :
  adds_directories s1 s2 -> adds_directories s2 s3 -> adds_directories s1 s3.
Proof.
  intros (G1 & D1) (G2 & D2). split; [by eapply grows_trans |].
  intros q n H. destruct (D2 _ _ H) as [H' | ->]; [by apply D1 | by right].
Qed.

Lemma mkdir_adds p s r s' : Os.mkdir p s = (r, s') -> adds_directories s s'.
Proof.
  intros H. split; [by apply mkdir_inv in H as (? & _) |].
  revert H. unfold Os.mkdir, Os.lookup_path. run_py.
  destruct (fs (os s) !! p) as [n0 |] eqn:E; [by intros [= <- <-]; auto |].
  destruct (Os.check_parent p s) as [[[] |] s1] eqn:Hc;
    apply check_parent_inv in Hc as (-> & _ & _); intros [= <- <-]; [| auto].
  intros q n. simpl. destruct (decide (q = p)) as [-> |].
  - rewrite lookup_insert_eq. intros [= <-]. by right.
  - rewrite lookup_insert_ne by done. auto.
Qed.

(** One level of [os.makedirs], read backwards: the ancestors were dealt
    with first, and the directory that is to hold [p] is there unless [p]
    has no directory part or no last component. *)
Lemma makedirs_rec_adds fuel : forall p s r s',
  Os.makedirs_rec fuel p s = (r, s') ->
  adds_directories s s'
  /\ ((r = Ok tt \/ r = Raise (OSError EEXIST)) ->
        is_Some (fs (os s') !! Path.dirname p)
        \/ Path.dirname p = "" \/ Path.basename p = "").
Proof.
  induction fuel as [| fuel IH]; intros p s r s'; simpl.
  - intros [= <- <-]. split; [apply adds_directories_refl |]. by intros [|].
  - unfold bind at 1. unfold Os.path_exists at 1, Os.lookup_path at 1. run_py.
    destruct (decide (Path.dirname p = "")) as [Hd | Hd].
    { rewrite Hd. simpl. intros Hm. split; [by eapply mkdir_adds | auto]. }
    destruct (decide (Path.basename p = "")) as [Hb | Hb].
    { rewrite Hb. rewrite andb_false_r. simpl.
      intros Hm. split; [by eapply mkdir_adds | auto]. }
    rewrite (bool_decide_eq_false_2 _ Hd), (bool_decide_eq_false_2 _ Hb). simpl.
    destruct (fs (os s) !! Path.dirname p) as [n |] eqn:Hh; simpl.
    { intros Hm. pose proof (mkdir_adds _ _ _ _ Hm) as A.
      split; [done |]. intros _. left. exists n.
      destruct A as (G & _). by eapply grows_keeps. }
    unfold try_except.
    destruct (Os.makedirs_rec fuel (Path.dirname p) s) as [[[] | e] s1] eqn:Hr.
    + pose proof (makedirs_rec_inv _ _ _ _ _ Hr) as (_ & Hok & _).
      apply IH in Hr as (A1 & _). intros Hm.
      pose proof (mkdir_adds _ _ _ _ Hm) as A2.
      split; [by eapply adds_directories_trans |]. intros _. left.
      exists Dir. destruct A2 as (G & _). eapply grows_keeps; [done | by apply Hok].
    + pose proof (makedirs_rec_inv _ _ _ _ _ Hr) as (_ & _ & Hex).
      apply IH in Hr as (A1 & _).
      destruct e as [[] | | | |]; simpl;
        try (intros [= <- <-]; split; [done | by intros [|]]).
      intros Hm. pose proof (mkdir_adds _ _ _ _ Hm) as A2.
      split; [by eapply adds_directories_trans |]. intros _. left.
      destruct (Hex eq_refl) as [n Hn]. exists n.
      destruct A2 as (G & _). by eapply grows_keeps.
Qed.


(** X8. Creating a directory is repeatable: after a call of [__create_dir]
    that returned, a second call for the same path returns as well and
    changes nothing. *)
Theorem create_dir_idempotent p s s' :
  __create_dir p s = (Ok tt, s') ->
  __create_dir p s' = (Ok tt, s').
Proof.
  intros H. pose proof (create_dir_inv _ _ _ _ H) as (_ & Hok).
  apply create_dir_present; [by apply Hok |].
  revert H. unfold __create_dir, try_except, Os.makedirs.
  destruct (Os.makedirs_rec _ p s) as [[[] | e] s1] eqn:Hr;
    apply makedirs_rec_adds in Hr as (_ & Hpar).
  - intros [= <-]. apply Hpar. by left.
  - destruct e as [[] | | | |]; simpl; intros [= <-]; try done.
    apply Hpar. by right.
Qed.

(** ** What extraction may do to the machine *)

Lemma copy_outcome src dst s r s' d m :
  fs (os s) !! src = Some (File d m) ->
  Os.copy src dst s = (r, s') ->
  (s' = s /\ r <> Ok tt)
  \/ exists dst', fs (os s) !! dst' <> Some Dir
                 /\ s' = mkState (self s) (set_fs (insert dst' (File d m)) (os s))
                 /\ (dst' = dst \/ fs (os s) !! dst = Some Dir).
Proof.
  intros Hsrc. unfold Os.copy, Os.read_file, Os.check_parent, Os.lookup_path. run_py.
  rewrite Hsrc. simpl.
  assert (match fs (os s) !! dst with
          | Some Dir => Path.join dst (Path.basename src)
          | _ => dst
          end = dst \/ fs (os s) !! dst = Some Dir) as Hdst
    by (destruct (fs (os s) !! dst) as [[] |]; auto).
  revert Hdst.
  set (dst' := match fs (os s) !! dst with
               | Some Dir => Path.join dst (Path.basename src)
               | _ => dst
               end).
  intros Hdst.
  destruct (fs (os s) !! dst') as [[] |] eqn:Hd; simpl;
    try (intros [= <- <-]; by left);
    (destruct (fs (os s) !! Path.dirname dst') as [[] |]; simpl;
       intros [= <- <-]; [by left | | by left]);
    right; exists dst'; (split; [by rewrite Hd | done]).
Qed.

Lemma remove_file p s d m :
  fs (os s) !! p = Some (File d m) ->
  Os.remove p s = (Ok tt, mkState (self s) (set_fs (delete p) (os s))).
Proof. intros H. unfold Os.remove, Os.lookup_path. run_py. by rewrite H. Qed.

Lemma leaf_block_outcome pkg has_fchmod path nm exe s r s' :
  with_MovableTemporaryFile (path +:+ Path.extsep)
    (write_leaf pkg has_fchmod path nm exe) s = (r, s') ->
  self s' = self s
  /\ lock_calls (os s') = lock_calls (os s)
  /\ held_elsewhere (os s') = held_elsewhere (os s)
  /\ (fs (os s') = fs (os s)
      \/ exists dst,
           fs (os s) !! dst <> Some Dir
           /\ fs (os s') =
                <[dst := File (resource_bytes pkg nm) (leaf_mode exe has_fchmod)]>
                  (fs (os s)))
  /\ (r = Ok tt -> is_Some (fs (os s') !! path)).
Proof.
  unfold with_MovableTemporaryFile, Os.NamedTemporaryFile, Os.next_fresh.
  unfold bind at 1. unfold bind at 1. unfold bind at 1. unfold get_os at 1.
  fold (temporary_for path).
  destruct (Os.fresh_name _ _ _) as [[tmp rest] |] eqn:Hfresh.
  2:{ run_py. intros [= <- <-]. split_and!; try done. by left. }
  pose proof (fresh_name_inv _ _ _ _ _ Hfresh) as (Hfree & sfx & _ & Htmp).
  assert (tmp <> path) as Hne by (rewrite Htmp; apply temporary_name_neq).
  unfold Os.check_parent, Os.lookup_path. run_py.
  destruct (fs (os s) !! Path.dirname tmp) as [[] |] eqn:Htd; simpl;
    try (intros [= <- <-]; split_and!; try done; by left).
  unfold Os.new_file_object, finally, write_leaf,
    resource_string, Os.write, Os.fstat_mode, Os.fchmod, Os.close, Os.name_of,
    Os.read_file, Os.lookup_path.
  run_py. rewrite lookup_new_file_object. simpl. rewrite lookup_insert_eq. simpl.
  unfold leaf_mode.
  destruct (exe && has_fchmod); simpl;
    repeat (first [ rewrite lookup_new_file_object
                  | rewrite lookup_insert_eq ]; simpl);
    try change (Z.land (Z.lor (Z.lor Os.S_IFREG 384) Os.S_IXUSR) 4095) with 448.
  all: match goal with
       | |- context [Os.copy _ _ ?st] => set (sT := st)
       end.
  all: match goal with
       | sT := mkState _ (set_closes _ (set_fs (insert _ (File _ ?md)) _)) |- _ =>
           assert (fs (os sT) !! tmp = Some (File (resource_bytes pkg nm) md)) as HsT
             by (subst sT; simpl; by rewrite lookup_insert_eq)
       end.
  all: assert (forall q, q <> tmp -> fs (os sT) !! q = fs (os s) !! q) as Hother
         by (intros q Hq; subst sT; simpl; by rewrite !lookup_insert_ne).
  all: assert (files (os sT) !! List.length (files (os s)) = Some tmp) as Hh
         by (subst sT; simpl; apply lookup_new_file_object).
  all: assert (self sT = self s /\ lock_calls (os sT) = lock_calls (os s)
               /\ held_elsewhere (os sT) = held_elsewhere (os s)) as (Hs1 & Hs2 & Hs3)
         by (by subst sT).
  all: clearbody sT.
  all: destruct (Os.copy tmp path sT) as [r0 s0] eqn:Hc.
  all: destruct (copy_outcome _ _ _ _ _ _ _ HsT Hc)
         as [(-> & Hr0) | (dst' & Hnd & -> & Hdst)];
       simpl; rewrite Hh; simpl.
  1,3: erewrite remove_file by exact HsT; intros [= <- <-]; simpl;
       split_and!; try done; left; apply map_eq; intros q;
       (destruct (decide (q = tmp)) as [-> |];
          [by rewrite lookup_delete_eq | by rewrite lookup_delete_ne, Hother]).
  all: assert (dst' = path \/ fs (os s) !! path = Some Dir) as Hpath
         by (destruct Hdst as [-> | Hdir]; [by left | right; by rewrite <- Hother]).
  all: destruct (decide (dst' = tmp)) as [-> | Hd].
  1,3: erewrite remove_file by (simpl; apply lookup_insert_eq);
       intros [= <- <-]; simpl;
       assert (delete tmp (<[tmp:=File (resource_bytes pkg nm) _]> (fs (os sT)))
               = fs (os s)) as ->
         by (apply map_eq; intros q;
             destruct (decide (q = tmp)) as [-> |];
               [by rewrite lookup_delete_eq
               | by rewrite lookup_delete_ne, lookup_insert_ne, Hother]);
       split_and!; try done; [by left |];
       intros _; destruct Hpath as [? | ->]; [done | eauto].
  all: erewrite remove_file by (simpl; rewrite lookup_insert_ne by done; exact HsT).
  all: intros [= <- <-]; simpl.
  all: match goal with
       | |- context [delete ?t (<[?d:=?F]> (fs (os ?st)))] =>
           assert (delete t (<[d:=F]> (fs (os st))) = <[d:=F]> (fs (os s))) as ->
             by (apply map_eq; intros q;
                 destruct (decide (q = t)) as [-> |];
                   [rewrite lookup_delete_eq, lookup_insert_ne by done; by rewrite Hfree |];
                 rewrite lookup_delete_ne by done;
                 destruct (decide (q = d)) as [-> |];
                   [by rewrite !lookup_insert_eq | by rewrite !lookup_insert_ne, Hother])
       end.
  all: split_and!; try done.
  1,3: right; exists dst'; split; [by rewrite <- Hother | done].
  all: intros _; destruct Hpath as [-> | Hdir]; [rewrite lookup_insert_eq; eauto |].
  all: destruct (decide (dst' = path)) as [-> |];
       [rewrite lookup_insert_eq | rewrite lookup_insert_ne by done; rewrite Hdir]; eauto.
Qed.

Lemma extracts_refl pkg md s : extracts pkg md s s.
Proof. unfold extracts. split_and!; auto. Qed.

Lemma extracts_trans pkg md s1 s2 s3 :
  extracts pkg md s1 s2 -> extracts pkg md s2 s3 -> extracts pkg md s1 s3.
Proof.
  intros (A1 & A2 & A3 & A4 & A5 & A6) (B1 & B2 & B3 & B4 & B5 & B6).
  unfold extracts. split_and!; try congruence; auto.
  intros q d m H. destruct (B6 _ _ _ H) as [H' | H']; [by apply A6 | by right].
Qed.

Lemma adds_directories_extracts pkg md s s' :
  adds_directories s s' -> extracts pkg md s s'.
Proof.
  intros (G & D). pose proof G as (m0 & -> & Hsub). unfold extracts. simpl.
  split_and!; try done.
  - intros q Hq. by eapply lookup_weaken.
  - intros q [n Hq]. exists n. by eapply lookup_weaken.
  - intros q d m Hq. destruct (D _ _ Hq) as [? | ?]; [by left | done].
Qed.

Lemma create_dir_adds p s r s' : __create_dir p s = (r, s') -> adds_directories s s'.
Proof.
  unfold __create_dir, try_except, Os.makedirs.
  destruct (Os.makedirs_rec _ p s) as [[[] | e] s1] eqn:Hr;
    apply makedirs_rec_adds in Hr as (A & _).
  - by intros [= <- <-].
  - destruct e as [[] | | | |]; simpl; by intros [= <- <-].
Qed.

Lemma leaf_block_extracts pkg has_fchmod path nm exe s r s' :
  resource_exists pkg nm = true ->
  resource_isdir pkg nm = false ->
  with_MovableTemporaryFile (path +:+ Path.extsep)
    (write_leaf pkg has_fchmod path nm exe) s = (r, s') ->
  extracts pkg (leaf_mode exe has_fchmod) s s'.
Proof.
  intros Hex Hdir H.
  apply leaf_block_outcome in H as (Hs & Hl & Hh & [Hfs | (dst & Hnd & Hfs)] & _);
    unfold extracts; rewrite Hfs; split_and!; try done; auto.
  - intros q Hq. destruct (decide (q = dst)) as [-> |]; [done |].
    by rewrite lookup_insert_ne.
  - intros q Hq. destruct (decide (q = dst)) as [-> |];
      [rewrite lookup_insert_eq; eauto | by rewrite lookup_insert_ne].
  - intros q d m. destruct (decide (q = dst)) as [-> |].
    + rewrite lookup_insert_eq. intros Hq. simplify_eq. right. eauto.
    + rewrite lookup_insert_ne by done. auto.
Qed.

Lemma for_each_extracts {A} pkg md (body : A -> M unit) (l : list A) :
  (forall x s r s', body x s = (r, s') -> extracts pkg md s s') ->
  forall s r s', for_each l body s = (r, s') -> extracts pkg md s s'.
Proof.
  intros Hbody. induction l as [| x l IH]; intros s r s'; simpl.
  - intros [= <- <-]. apply extracts_refl.
  - intros H. apply bind_inv in H as [(a & s1 & H1 & H2) | (e & H1 & _)].
    + eapply extracts_trans; [by eapply Hbody | by eapply IH].
    + by eapply Hbody.
Qed.

Lemma unpack_resource_extracts pkg has_fchmod fuel : forall path nm exe s r s',
  _unpack_resource pkg has_fchmod fuel path nm exe s = (r, s') ->
  extracts pkg (if resource_isdir pkg nm then 384 else leaf_mode exe has_fchmod) s s'.
Proof.
  induction fuel as [| fuel IH]; intros path nm exe s r s'; simpl.
  - intros [= <- <-]. apply extracts_refl.
  - destruct (resource_exists pkg nm) eqn:Hex; simpl;
      [| intros [= <- <-]; apply extracts_refl].
    destruct (resource_isdir pkg nm) eqn:Hdir.
    + intros H. apply bind_inv in H as [(a & s1 & H1 & H2) | (e & H1 & _)].
      * eapply extracts_trans;
          [by eapply adds_directories_extracts, create_dir_adds |].
        eapply for_each_extracts; [| exact H2].
        intros f s2 r2 s2'. simpl. destruct (bool_decide (f = "")).
        -- unfold ret. intros [= <- <-]. apply extracts_refl.
        -- intros H. apply IH in H. by destruct (resource_isdir pkg (Path.join nm f)).
      * by eapply adds_directories_extracts, create_dir_adds.
    + by apply leaf_block_extracts.
Qed.

(** X9. Extraction is safe for what is on disk.  Whatever the resource, a
    leaf or a tree of any depth, and whatever the outcome, a value or an
    exception half way: the session, the lock attempts and the locks of
    others are untouched; a directory stays a directory and a path that was
    taken stays taken, so that nothing is deleted; and every regular file
    that is new or different afterwards holds the content of a leaf of the
    package.  Its permission bits are those the executable flag asks for
    when the resource itself is a leaf, and 0o600 for everything under a
    directory resource: the flag is not handed down. *)
Theorem unpack_resource_safe pkg has_fchmod fuel path nm exe s r s' :
  _unpack_resource pkg has_fchmod fuel path nm exe s = (r, s') ->
  self s' = self s
  /\ lock_calls (os s') = lock_calls (os s)
  /\ held_elsewhere (os s') = held_elsewhere (os s)
  /\ (forall q, fs (os s) !! q = Some Dir -> fs (os s') !! q = Some Dir)
  /\ (forall q, is_Some (fs (os s) !! q) -> is_Some (fs (os s') !! q))
  /\ (forall q d m, fs (os s') !! q = Some (File d m) ->
        fs (os s) !! q = Some (File d m)
        \/ (m = (if resource_isdir pkg nm then 384 else leaf_mode exe has_fchmod)
            /\ exists leaf, resource_exists pkg leaf = true
                            /\ resource_isdir pkg leaf = false
                            /\ d = resource_bytes pkg leaf)).
Proof. intros H. exact (unpack_resource_extracts _ _ _ _ _ _ _ _ _ H). Qed.

(** A successful extraction of a resource that is in the package leaves
    something at the target. *)
Lemma unpack_resource_made pkg has_fchmod fuel path nm exe s s' :
  _unpack_resource pkg has_fchmod fuel path nm exe s = (Ok tt, s') ->
  resource_exists pkg nm = true ->
  is_Some (fs (os s') !! path).
Proof.
  destruct fuel as [| fuel]; simpl; [done |].
  intros H Hex. rewrite Hex in H. simpl in H.
  destruct (resource_isdir pkg nm) eqn:Hdir.
  - apply bind_inv in H as [([] & s1 & H1 & H2) | (e & _ & ?)]; [| done].
    apply create_dir_inv in H1 as (_ & Hp). specialize (Hp eq_refl).
    assert (extracts pkg 384 s1 s') as (_ & _ & _ & _ & E & _); [| by apply E].
    eapply for_each_extracts; [| exact H2].
    intros f s2 r2 s2'. simpl. destruct (bool_decide (f = "")).
    + unfold ret. intros [= <- <-]. apply extracts_refl.
    + intros H. apply unpack_resource_extracts in H.
      by destruct (resource_isdir pkg (Path.join nm f)).
  - apply leaf_block_outcome in H as (_ & _ & _ & _ & Hmade). by apply Hmade.
Qed.

Lemma create_dir_ok_parent p s s' :
  __create_dir p s = (Ok tt, s') ->
  is_Some (fs (os s') !! Path.dirname p)
  \/ Path.dirname p = "" \/ Path.basename p = "".
Proof.
  unfold __create_dir, try_except, Os.makedirs.
  destruct (Os.makedirs_rec _ p s) as [[[] | e] s1] eqn:Hr;
    apply makedirs_rec_adds in Hr as (_ & Hpar).
  - intros [= <-]. apply Hpar. by left.
  - destruct e as [[] | | | |]; simpl; intros [= <-]; try done.
    apply Hpar. by right.
Qed.

(** The body of the loop of [_unpack_dir]. *)
Lemma unpack_dir_step_extracts pkg has_fchmod limit nm dst f s r s' :
  (present <- Os.path_exists (Path.join dst f) ;;
   if present then ret tt
   else _unpack_resource pkg has_fchmod limit (Path.join dst f)
          (nm +:+ "/" +:+ f) false) s = (r, s') ->
  extracts pkg 384 s s'.
Proof.
  unfold Os.path_exists, Os.lookup_path. run_py.
  destruct (bool_decide _); simpl.
  - intros [= <- <-]. apply extracts_refl.
  - intros H. apply unpack_resource_extracts in H.
    by destruct (resource_isdir pkg _).
Qed.

Lemma unpack_dir_inv pkg has_fchmod limit nm dst s r s' :
  _unpack_dir pkg has_fchmod limit nm dst s = (r, s') ->
  extracts pkg 384 s s'
  /\ (r = Ok tt ->
        resource_exists pkg nm = true /\ resource_isdir pkg nm = true
        /\ is_Some (fs (os s') !! dst)
        /\ (is_Some (fs (os s') !! Path.dirname dst)
            \/ Path.dirname dst = "" \/ Path.basename dst = ""))
  /\ (resource_exists pkg nm = false \/ resource_isdir pkg nm = false ->
        s' = s /\ exists e, r = Raise e).
Proof.
  unfold _unpack_dir.
  destruct (resource_exists pkg nm) eqn:Hex; simpl.
  2:{ intros [= <- <-]. split_and!; [apply extracts_refl | done | eauto]. }
  destruct (resource_isdir pkg nm) eqn:Hdir; simpl.
  2:{ intros [= <- <-]. split_and!; [apply extracts_refl | done | eauto]. }
  intros H.
  apply bind_inv in H as [([] & s1 & H1 & H2) | (e & H1 & ->)].
  2:{ split_and!; [by eapply adds_directories_extracts, create_dir_adds | done |].
      by intros [|]. }
  pose proof (create_dir_ok_parent _ _ _ H1) as Hpar.
  pose proof (adds_directories_extracts pkg 384 _ _ (create_dir_adds _ _ _ _ H1)) as E1.
  revert H2. unfold bind at 1. unfold Os.path_exists at 1, Os.lookup_path. run_py.
  destruct (fs (os s1) !! dst) as [n |] eqn:Hd; simpl.
  2:{ intros [= <- <-]. split_and!; [done | done | by intros [|]]. }
  intros H2.
  assert (extracts pkg 384 s1 s') as E2.
  { eapply for_each_extracts; [| exact H2].
    intros f sa ra sb. apply unpack_dir_step_extracts. }
  split_and!; [by eapply extracts_trans | | by intros [|]].
  intros _. destruct E2 as (_ & _ & _ & _ & E & _).
  split_and!; try done.
  - apply E. by rewrite Hd.
  - destruct Hpar as [Hpar | Hpar]; [left; by apply E | by right].
Qed.

(** X10. What [_unpack_dir] may do.  A name that is not in the package, or
    that is a leaf, is refused before anything is touched.  Otherwise, and
    whatever the outcome, nothing on disk is deleted, no directory is
    replaced, and every regular file that is new or different holds the
    content of a leaf of the package with permission bits 0o600; when the
    call returns, the destination is on disk. *)
Theorem unpack_dir_contract pkg has_fchmod limit nm dst s r s' :
  _unpack_dir pkg has_fchmod limit nm dst s = (r, s') ->
  (resource_exists pkg nm = false \/ resource_isdir pkg nm = false ->
     s' = s /\ exists e, r = Raise e)
  /\ (r = Ok tt -> is_Some (fs (os s') !! dst))
  /\ self s' = self s
  /\ (forall q, fs (os s) !! q = Some Dir -> fs (os s') !! q = Some Dir)
  /\ (forall q, is_Some (fs (os s) !! q) -> is_Some (fs (os s') !! q))
  /\ (forall q d m, fs (os s') !! q = Some (File d m) ->
        fs (os s) !! q = Some (File d m)
        \/ (m = 384
            /\ exists leaf, resource_exists pkg leaf = true
                            /\ resource_isdir pkg leaf = false
                            /\ d = resource_bytes pkg leaf)).
Proof.
  intros H. apply unpack_dir_inv in H as ((? & _ & _ & ? & ? & ?) & Hok & Hbad).
  split_and!; try done. intros Hr. by destruct (Hok Hr) as (_ & _ & ? & _).
Qed.

Lemma unpack_dir_rerun pkg has_fchmod limit nm dst (l : list string) :
  let body := fun resource_file =>
    let resource_path := Path.join dst resource_file in
    present <- Os.path_exists resource_path ;;
    if present then ret tt
    else _unpack_resource pkg has_fchmod limit resource_path
           (nm +:+ "/" +:+ resource_file) false in
  forall sa se,
    for_each l body sa = (Ok tt, se) ->
    forall sf,
      (forall q, is_Some (fs (os se) !! q) -> is_Some (fs (os sf) !! q)) ->
      for_each l body sf = (Ok tt, sf).
Proof.
  intros body. induction l as [| f l IH]; intros sa se H sf Hsub; [done |].
  simpl in H. apply bind_inv in H as [([] & sb & H1 & H2) | (e & _ & ?)]; [| done].
  assert (extracts pkg 384 sb se) as (_ & _ & _ & _ & E & _).
  { eapply for_each_extracts; [| exact H2].
    intros g s0 r0 s0'. apply unpack_dir_step_extracts. }
  simpl. unfold bind at 1.
  assert (body f sf = (Ok tt, sf)) as ->; [| by eapply IH].
  revert H1. unfold body, Os.path_exists, Os.lookup_path. run_py.
  destruct (fs (os sf) !! Path.join dst f) as [n |] eqn:Hf; simpl; [done |].
  destruct (fs (os sa) !! Path.join dst f) as [n |] eqn:Ha; simpl.
  - intros [= <-]. exfalso.
    assert (is_Some (fs (os sf) !! Path.join dst f)) as [? ?]
      by (apply Hsub, E; by rewrite Ha).
    congruence.
  - intros H1. destruct limit as [| n]; simpl in *; [done |].
    destruct (resource_exists pkg _) eqn:Hex; simpl in *; [| done].
    exfalso.
    assert (is_Some (fs (os sf) !! Path.join dst f)) as [? ?].
    { apply Hsub, E.
      eapply (unpack_resource_made pkg has_fchmod (S n)); [| exact Hex].
      simpl. rewrite Hex. simpl. exact H1. }
    congruence.
Qed.

(** X13. [_unpack_dir] is repeatable: once it has returned, running it
    again for the same resource and destination returns as well and changes
    nothing on the machine; in particular the package is not read again. *)
Theorem unpack_dir_idempotent pkg has_fchmod limit nm dst s s' :
  _unpack_dir pkg has_fchmod limit nm dst s = (Ok tt, s') ->
  _unpack_dir pkg has_fchmod limit nm dst s' = (Ok tt, s').
Proof.
  intros H.
  pose proof (unpack_dir_inv _ _ _ _ _ _ _ _ H) as (_ & Hok & _).
  destruct (Hok eq_refl) as (Hex & Hdir & Hdst & Hpar).
  revert H. unfold _unpack_dir. rewrite Hex, Hdir. simpl.
  intros H. apply bind_inv in H as [([] & s1 & H1 & H2) | (e & _ & ?)]; [| done].
  unfold bind at 1. rewrite create_dir_present by done.
  revert H2. unfold bind. unfold Os.path_exists, Os.lookup_path. run_py.
  destruct (fs (os s1) !! dst) as [n |]; simpl; [| done].
  rewrite bool_decide_eq_true_2 by done. simpl.
  intros H2. eapply unpack_dir_rerun; [exact H2 | auto].
Qed.

(** ** Asking for a resource again *)

Lemma path_exists_inv q s r s' :
  Os.path_exists q s = (r, s') ->
  s' = s /\ r = Ok (bool_decide (is_Some (fs (os s) !! q))).
Proof. unfold Os.path_exists, Os.lookup_path. run_py. by intros [= <- <-]. Qed.

Lemma locate_remembers s d s1 :
  _get_resource_subdir s = (Ok d, s1) -> _resource_subdir (self s1) = d.
Proof.
  unfold _get_resource_subdir. intros H.
  apply bind_inv in H as [(b & s0 & _ & H) | (e & _ & ?)]; [| done].
  apply bind_inv in H as [([] & s2 & _ & H) | (e & _ & ?)]; [| done].
  run_py. congruence.
Qed.

Lemma locate_memo s d :
  _resource_subdir (self s) = Some d ->
  _get_resource_subdir s = (Ok (Some d), s).
Proof. intros Hm. unfold _get_resource_subdir. run_py. rewrite Hm. run_py. by rewrite Hm. Qed.

(** X11. [_get_resource] is repeatable, for every resource: after a call
    that returned a path, a second call returns the same path and changes
    nothing on the machine; the package is not read again, no lock is tried
    and nothing is written. *)
Theorem get_resource_idempotent pkg has_fchmod limit r s p s' :
  _get_resource pkg has_fchmod limit r s = (Ok p, s') ->
  _get_resource pkg has_fchmod limit r s' = (Ok p, s').
Proof.
  unfold _get_resource. intros H.
  apply bind_inv in H as [(d0 & s1 & Hloc & H) | (e & _ & ?)]; [| done].
  pose proof (locate_remembers _ _ _ Hloc) as Hmemo.
  destruct d0 as [d |]; [| done]. simpl in H.
  unfold bind at 1 in H. unfold ret at 1 in H.
  set (target := Path.join d (basename r)) in *.
  apply bind_inv in H as [(b & s1' & Hb & H) | (e & _ & ?)]; [| done].
  apply path_exists_inv in Hb as (-> & [= ->]).
  apply bind_inv in H as [([] & s2 & Hpar & H) | (e & _ & ?)]; [| done].
  apply bind_inv in H as [(b2 & s2' & Hb2 & H) | (e & _ & ?)]; [| done].
  apply path_exists_inv in Hb2 as (-> & [= ->]).
  apply bind_inv in H as [([] & s3 & Hun & H) | (e & _ & ?)]; [| done].
  revert H. unfold ret. intros [= <- <-].
  (* the parent directory is there after the first call *)
  assert (self s2 = self s1 /\ is_Some (fs (os s2) !! Path.dirname target))
    as (Hself2 & Hpar2).
  { revert Hpar. destruct (fs (os s1) !! Path.dirname target) as [n |] eqn:Hp; simpl.
    - unfold ret. intros [= <-]. by rewrite Hp.
    - intros Hc. pose proof (create_dir_inv _ _ _ _ Hc) as (G & Hok).
      split; [by apply grows_self | by apply Hok]. }
  assert (extracts pkg (if resource_isdir pkg (name r) then 384
                        else leaf_mode (executable r) has_fchmod) s2 s3) as E.
  { revert Hun. destruct (fs (os s2) !! target); simpl.
    - unfold ret. intros [= <-]. apply extracts_refl.
    - apply unpack_resource_extracts. }
  destruct E as (Hself3 & _ & _ & _ & E & _).
  assert (_resource_subdir (self s3) = Some d) as Hmemo3 by congruence.
  unfold bind at 1. rewrite (locate_memo _ _ Hmemo3). simpl.
  unfold bind at 1. unfold ret at 1. fold target.
  unfold Os.path_exists, Os.lookup_path. run_py.
  rewrite (bool_decide_eq_true_2 _ (E _ Hpar2)). simpl.
  destruct (fs (os s3) !! target) as [n |] eqn:H3; simpl; [done |].
  (* nothing at the target: the resource is not in the package *)
  revert Hun. destruct (fs (os s2) !! target) as [n |] eqn:H2; simpl.
  - unfold ret. intros [= <-]. congruence.
  - intros Hun. destruct limit as [| n]; simpl in *; [done |].
    destruct (resource_exists pkg (name r)) eqn:Hex; simpl in *; [| done].
    exfalso.
    assert (is_Some (fs (os s3) !! target)) as [? ?]; [| congruence].
    eapply (unpack_resource_made pkg has_fchmod (S n)); [| exact Hex].
    simpl. rewrite Hex. simpl. exact Hun.
Qed.

(** ** The arguments for the Java process *)


(** ** File objects and reads of the package during extraction *)

Lemma copy_io src dst s r s' :
  Os.copy src dst s = (r, s') ->
  files (os s') = files (os s) /\ closes (os s') = closes (os s)
  /\ reads (os s') = reads (os s).
Proof.
  unfold Os.copy, Os.read_file, Os.check_parent, Os.lookup_path. run_py.
  destruct (fs (os s) !! src) as [[] |]; simpl; try (by intros [= <- <-]).
  destruct (fs (os s) !! _) as [[] |]; simpl; try (by intros [= <- <-]);
    (destruct (fs (os s) !! Path.dirname _) as [[] |]; simpl; by intros [= <- <-]).
Qed.

Lemma remove_io p s r s' :
  Os.remove p s = (r, s') ->
  files (os s') = files (os s) /\ closes (os s') = closes (os s)
  /\ reads (os s') = reads (os s).
Proof.
  unfold Os.remove, Os.lookup_path. run_py.
  destruct (fs (os s) !! p) as [[] |]; simpl; by intros [= <- <-].
Qed.

Lemma io_balanced_refl pkg s : io_balanced pkg s s.
Proof.
  exists [], []. simpl. rewrite !app_nil_r. split_and!; try done.
Qed.

Lemma io_balanced_trans pkg s1 s2 s3 :
  io_balanced pkg s1 s2 -> io_balanced pkg s2 s3 -> io_balanced pkg s1 s3.
Proof.
  intros (t1 & n1 & F1 & C1 & R1 & L1 & A1) (t2 & n2 & F2 & C2 & R2 & L2 & A2).
  exists (t1 ++ t2), (n1 ++ n2). split_and!.
  - by rewrite F2, F1, <- app_assoc.
  - rewrite C2, C1, F1, <- app_assoc. f_equal.
    rewrite !length_app. by rewrite seq_app.
  - by rewrite R2, R1, <- app_assoc.
  - rewrite !length_app. congruence.
  - by apply Forall_app.
Qed.

Lemma io_balanced_same pkg s s' :
  files (os s') = files (os s) -> closes (os s') = closes (os s) ->
  reads (os s') = reads (os s) -> io_balanced pkg s s'.
Proof.
  intros F C R. exists [], []. simpl. rewrite !app_nil_r. split_and!; try done.
Qed.

Lemma leaf_block_io pkg has_fchmod path nm exe s r s' :
  resource_exists pkg nm = true ->
  resource_isdir pkg nm = false ->
  with_MovableTemporaryFile (path +:+ Path.extsep)
    (write_leaf pkg has_fchmod path nm exe) s = (r, s') ->
  io_balanced pkg s s'.
Proof.
  intros Hex Hdir.
  unfold with_MovableTemporaryFile, Os.NamedTemporaryFile, Os.next_fresh.
  unfold bind at 1. unfold bind at 1. unfold bind at 1. unfold get_os at 1.
  destruct (Os.fresh_name _ _ _) as [[tmp rest] |] eqn:Hfresh.
  2:{ run_py. intros [= <- <-]. by apply io_balanced_same. }
  unfold Os.check_parent, Os.lookup_path. run_py.
  destruct (fs (os s) !! Path.dirname tmp) as [[] |] eqn:Htd; simpl;
    try (intros [= <- <-]; by apply io_balanced_same).
  unfold Os.new_file_object, finally, write_leaf,
    resource_string, Os.write, Os.fstat_mode, Os.fchmod, Os.close, Os.name_of,
    Os.read_file, Os.lookup_path.
  run_py. rewrite lookup_new_file_object. simpl. rewrite lookup_insert_eq. simpl.
  destruct (exe && has_fchmod); simpl;
    repeat (first [ rewrite lookup_new_file_object
                  | rewrite lookup_insert_eq ]; simpl).
  all: match goal with
       | |- context [Os.copy _ _ ?st] => set (sT := st)
       end.
  all: assert (files (os sT) = files (os s) ++ [tmp]
               /\ closes (os sT) = closes (os s) ++ [List.length (files (os s))]
               /\ reads (os sT) = reads (os s) ++ [nm]) as (HF & HC & HR)
         by (by subst sT).
  all: clearbody sT.
  all: destruct (Os.copy tmp path sT) as [r0 s0] eqn:Hc.
  all: apply copy_io in Hc as (F0 & C0 & R0).
  all: rewrite F0, HF, lookup_new_file_object; simpl.
  all: destruct (Os.remove tmp s0) as [r1 s1] eqn:Hrm.
  all: apply remove_io in Hrm as (F1 & C1 & R1).
  all: assert (io_balanced pkg s s1)
         by (exists [tmp], [nm]; simpl; split_and!;
             [congruence | congruence | congruence | done
             | by apply Forall_singleton]).
  all: by destruct r1 as [[] | e]; intros [= <- <-].
Qed.

Lemma for_each_io {A} pkg (body : A -> M unit) (l : list A) :
  (forall x s r s', body x s = (r, s') -> io_balanced pkg s s') ->
  forall s r s', for_each l body s = (r, s') -> io_balanced pkg s s'.
Proof.
  intros Hbody. induction l as [| x l IH]; intros s r s'; simpl.
  - intros [= <- <-]. apply io_balanced_refl.
  - intros H. apply bind_inv in H as [(a & s1 & H1 & H2) | (e & H1 & _)].
    + eapply io_balanced_trans; [by eapply Hbody | by eapply IH].
    + by eapply Hbody.
Qed.

Lemma create_dir_io pkg p s r s' : __create_dir p s = (r, s') -> io_balanced pkg s s'.
Proof.
  intros H. apply create_dir_inv in H as ((m & -> & _) & _).
  by apply io_balanced_same.
Qed.

Lemma unpack_resource_io pkg has_fchmod fuel : forall path nm exe s r s',
  _unpack_resource pkg has_fchmod fuel path nm exe s = (r, s') ->
  io_balanced pkg s s'.
Proof.
  induction fuel as [| fuel IH]; intros path nm exe s r s'; simpl.
  - intros [= <- <-]. apply io_balanced_refl.
  - destruct (resource_exists pkg nm) eqn:Hex; simpl;
      [| intros [= <- <-]; apply io_balanced_refl].
    destruct (resource_isdir pkg nm) eqn:Hdir.
    + intros H. apply bind_inv in H as [(a & s1 & H1 & H2) | (e & H1 & _)].
      * eapply io_balanced_trans; [by eapply create_dir_io |].
        eapply for_each_io; [| exact H2].
        intros f s2 r2 s2'. simpl. destruct (bool_decide (f = "")).
        -- unfold ret. intros [= <- <-]. apply io_balanced_refl.
        -- apply IH.
      * by eapply create_dir_io.
    + by apply leaf_block_io.
Qed.

(** X14. Extraction accounts for its file objects and for its reads.
    Whatever the resource and the outcome, the file objects created on the
    way have all been closed when [_unpack_resource] or [_unpack_dir] ends,
    one close each and in the order of their creation, and the package was
    read exactly once for each of them, each time for a leaf that it
    has. *)
Theorem extraction_io_balanced pkg has_fchmod limit :
  (forall path nm exe s r s',
     _unpack_resource pkg has_fchmod limit path nm exe s = (r, s') ->
     io_balanced pkg s s')
  /\ (forall nm dst s r s',
        _unpack_dir pkg has_fchmod limit nm dst s = (r, s') ->
        io_balanced pkg s s').
Proof.
  split; [apply unpack_resource_io |].
  intros nm dst s r s'. unfold _unpack_dir.
  destruct (resource_exists pkg nm); simpl;
    [| intros [= <- <-]; apply io_balanced_refl].
  destruct (resource_isdir pkg nm); simpl;
    [| intros [= <- <-]; apply io_balanced_refl].
  intros H. apply bind_inv in H as [([] & s1 & H1 & H2) | (e & H1 & _)];
    [| by eapply create_dir_io].
  eapply io_balanced_trans; [by eapply create_dir_io |].
  apply bind_inv in H2 as [(b & s2 & Hb & H2) | (e & Hb & _)];
    apply path_exists_inv in Hb as (-> & ?); [| apply io_balanced_refl].
  destruct (negb b); [revert H2; unfold raise; intros [= <- <-]; apply io_balanced_refl |].
  eapply for_each_io; [| exact H2].
  intros f sa ra sb. simpl. intros Hstep.
  apply bind_inv in Hstep as [(b' & sc & Hb' & Hstep) | (e & Hb' & _)];
    apply path_exists_inv in Hb' as (-> & ?); [| apply io_balanced_refl].
  destruct b'; [revert Hstep; unfold ret; intros [= <- <-]; apply io_balanced_refl |].
  by eapply unpack_resource_io.
Qed.

(** ** Where resources go, and modules that are missing *)

(** X15. The path [_get_resource] returns is made of the directory of the
    session and of the [basename] of the descriptor, not of its [name];
    that directory is what the session remembers afterwards. *)
Theorem get_resource_path pkg has_fchmod limit r s p s' :
  _get_resource pkg has_fchmod limit r s = (Ok p, s') ->
  exists d,
    _resource_subdir (self s') = Some d
    /\ p = Path.join d (basename r).
Proof.
  unfold _get_resource. intros H.
  apply bind_inv in H as [(d0 & s1 & Hloc & H) | (e & _ & ?)]; [| done].
  pose proof (locate_remembers _ _ _ Hloc) as Hmemo.
  destruct d0 as [d |]; [| done]. simpl in H.
  unfold bind at 1 in H. unfold ret at 1 in H.
  apply bind_inv in H as [(b & s1' & Hb & H) | (e & _ & ?)]; [| done].
  apply path_exists_inv in Hb as (-> & [= ->]).
  apply bind_inv in H as [([] & s2 & Hpar & H) | (e & _ & ?)]; [| done].
  apply bind_inv in H as [(b2 & s2' & Hb2 & H) | (e & _ & ?)]; [| done].
  apply path_exists_inv in Hb2 as (-> & [= ->]).
  apply bind_inv in H as [([] & s3 & Hun & H) | (e & _ & ?)]; [| done].
  revert H. unfold ret. intros [= <- <-].
  exists d. split; [| done].
  assert (self s2 = self s1) as Hs2.
  { revert Hpar. destruct (fs (os s1) !! Path.dirname _); simpl.
    - unfold ret. by intros [= <-].
    - intros Hc. apply create_dir_inv in Hc as (G & _). by apply grows_self. }
  assert (self s3 = self s2) as Hs3.
  { revert Hun. destruct (fs (os s2) !! _); simpl.
    - unfold ret. by intros [= <-].
    - intros Hu. by apply unpack_resource_extracts in Hu as (? & _). }
  congruence.
Qed.

(** X16. [_unpack_modules] without a directory of modules in the package:
    the session locates its directory and then the call raises; nothing is
    extracted, and the directory of the resources of the modules is not
    looked at. *)
Theorem unpack_modules_without_modules pkg has_fchmod limit s d s1 :
  _get_resource_subdir s = (Ok (Some d), s1) ->
  resource_exists pkg MODULES_DIR = false \/ resource_isdir pkg MODULES_DIR = false ->
  exists e, _unpack_modules pkg has_fchmod limit s = (Raise e, s1).
Proof.
  intros Hloc Hbad. unfold _unpack_modules. unfold bind at 1. rewrite Hloc. simpl.
  unfold bind at 1. unfold ret at 1. unfold bind at 1.
  destruct (_unpack_dir pkg has_fchmod limit MODULES_DIR _ s1) as [r s2] eqn:Hu.
  apply unpack_dir_inv in Hu as (_ & _ & Hb).
  destruct (Hb Hbad) as (-> & e & ->). eauto.
Qed.

(** * Runs of the further properties on the small machine *)


Lemma locate_postcondition_witness :
  exists dir h dat m,
    Some Example.canonical = Some dir
    /\ _resource_subdir (self Example.located) = Some dir
    /\ _lock_file (self Example.located) = Some h
    /\ files (os Example.located) !! h = Some (marker dir)
    /\ is_Some (fs (os Example.located) !! dir)
    /\ fs (os Example.located) !! marker dir = Some (File dat m)
    /\ (marker dir ∉ held_elsewhere (os Example.located))
    /\ _get_resource_lock_path Example.located = (Ok (marker dir), Example.located).
Proof.
  apply (locate_postcondition Example.s0 (Some Example.canonical) Example.located).
  - reflexivity.
  - vm_compute. reflexivity.
Defined.

Lemma locate_failure_not_remembered_witness :
  let s' := snd (_get_resource_subdir Example.both_held) in
  _resource_subdir (self s') = None
  /\ closes (os s') = closes (os Example.both_held)
  /\ (fs (os Example.both_held) ⊆ fs (os s')).
Proof.
  intros s'.
  apply (locate_failure_not_remembered Example.both_held
           (Exception "Could not acquire lock in fresh tmp dir: /out/tmp/resources/v1r1") s').
  - reflexivity.
  - vm_compute. reflexivity.
Defined.

Lemma locate_only_adds_witness :
  reads (os Example.located) = reads (os Example.s0)
  /\ closes (os Example.located) = closes (os Example.s0)
  /\ (forall p n, fs (os Example.s0) !! p = Some n -> fs (os Example.located) !! p = Some n)
  /\ _buck_out_tmp (self Example.located) = _buck_out_tmp (self Example.s0)
  /\ _resources_signature (self Example.located) = _resources_signature (self Example.s0)
  /\ (is_Some (_resource_subdir (self Example.s0)) ->
        Example.located = Example.s0
        /\ Ok (Some Example.canonical) = Ok (_resource_subdir (self Example.s0))).
Proof.
  apply (locate_only_adds Example.s0 (Ok (Some Example.canonical)) Example.located).
  vm_compute. reflexivity.
Defined.

Lemma exit_keeps_directory_witness :
  exists s1,
    __exit__ None Example.located = (Ok tt, s1)
    /\ _lock_file (self s1) = None
    /\ lock_calls (os s1) = lock_calls (os Example.located)
    /\ fs (os s1) = fs (os Example.located)
    /\ _get_resource_subdir s1 = (Ok (Some Example.canonical), s1).
Proof.
  apply (exit_keeps_directory Example.located Example.canonical None).
  vm_compute. reflexivity.
Defined.


Lemma create_dir_idempotent_witness :
  let s' := snd (__create_dir Example.canonical Example.s0) in
  __create_dir Example.canonical s' = (Ok tt, s').
Proof.
  intros s'. apply (create_dir_idempotent Example.canonical Example.s0 s').
  vm_compute. reflexivity.
Defined.

Lemma unpack_resource_safe_witness :
  let dst := "/out/tmp/resources/v1/buck-modules" in
  let s := Example.stale in
  let s' := snd (_unpack_resource Example.pkg true 3 dst "buck-modules" true s) in
  self s' = self s
  /\ lock_calls (os s') = lock_calls (os s)
  /\ held_elsewhere (os s') = held_elsewhere (os s)
  /\ (forall q, fs (os s) !! q = Some Dir -> fs (os s') !! q = Some Dir)
  /\ (forall q, is_Some (fs (os s) !! q) -> is_Some (fs (os s') !! q))
  /\ (forall q d m, fs (os s') !! q = Some (File d m) ->
        fs (os s) !! q = Some (File d m)
        \/ (m = (if resource_isdir Example.pkg "buck-modules" then 384
                 else leaf_mode true true)
            /\ exists leaf, resource_exists Example.pkg leaf = true
                            /\ resource_isdir Example.pkg leaf = false
                            /\ d = resource_bytes Example.pkg leaf)).
Proof.
  intros dst s s'.
  apply (unpack_resource_safe Example.pkg true 3 dst "buck-modules" true s (Ok tt) s').
  vm_compute. reflexivity.
Defined.

Lemma unpack_dir_contract_witness :
  let dst := "/out/tmp/resources/v1/buck-modules" in
  let s := Example.located in
  let s' := snd (_unpack_dir Example.pkg true 1000 "buck-modules" dst s) in
  (resource_exists Example.pkg "buck-modules" = false
   \/ resource_isdir Example.pkg "buck-modules" = false ->
     s' = s /\ exists e, Ok tt = Raise e)
  /\ (Ok tt = Ok tt -> is_Some (fs (os s') !! dst))
  /\ self s' = self s
  /\ (forall q, fs (os s) !! q = Some Dir -> fs (os s') !! q = Some Dir)
  /\ (forall q, is_Some (fs (os s) !! q) -> is_Some (fs (os s') !! q))
  /\ (forall q d m, fs (os s') !! q = Some (File d m) ->
        fs (os s) !! q = Some (File d m)
        \/ (m = 384
            /\ exists leaf, resource_exists Example.pkg leaf = true
                            /\ resource_isdir Example.pkg leaf = false
                            /\ d = resource_bytes Example.pkg leaf)).
Proof.
  intros dst s s'.
  apply (unpack_dir_contract Example.pkg true 1000 "buck-modules" dst s (Ok tt) s').
  vm_compute. reflexivity.
Defined.

Lemma unpack_dir_idempotent_witness :
  let dst := "/out/tmp/resources/v1/buck-modules" in
  let s' := snd (_unpack_dir Example.pkg true 1000 "buck-modules" dst Example.located) in
  _unpack_dir Example.pkg true 1000 "buck-modules" dst s' = (Ok tt, s').
Proof.
  intros dst s'.
  apply (unpack_dir_idempotent Example.pkg true 1000 "buck-modules" dst Example.located s').
  vm_compute. reflexivity.
Defined.

Lemma get_resource_idempotent_witness :
  let r := mkResource "buck_server" true "buck_server" in
  let s' := snd (_get_resource Example.pkg true 1000 r Example.s0) in
  _get_resource Example.pkg true 1000 r s' = (Ok "/out/tmp/resources/v1/buck_server", s').
Proof.
  intros r s'.
  apply (get_resource_idempotent Example.pkg true 1000 r Example.s0
           "/out/tmp/resources/v1/buck_server" s').
  vm_compute. reflexivity.
Defined.


Lemma extraction_io_balanced_witness :
  let dst := "/out/tmp/resources/v1/buck-modules" in
  io_balanced Example.pkg Example.located
    (snd (_unpack_resource Example.pkg true 3 dst "buck-modules" false Example.located))
  /\ io_balanced Example.pkg Example.located
       (snd (_unpack_dir Example.pkg true 3 "buck-modules" dst Example.located)).
Proof.
  intros dst.
  destruct (extraction_io_balanced Example.pkg true 3) as (H1 & H2).
  split.
  - apply (H1 dst "buck-modules" false Example.located (Ok tt)). vm_compute. reflexivity.
  - apply (H2 "buck-modules" dst Example.located (Ok tt)). vm_compute. reflexivity.
Defined.

(** The arguments for the Java process on the example with both module
    directories in the package. *)
Example extra_java_args_example :
  fst (_get_extra_java_args
         (snd (_unpack_modules pkg_with_module_resources true 1000 Example.s0)))
  = Ok [ "-Dbuck.git_dirty=0";
         "-Dbuck.path_to_python_dsl=";
         "-Dpf4j.pluginsDir=/out/tmp/resources/v1/buck-modules";
         "-Dbuck.mode=package";
         "-Dbuck.module.resources=/out/tmp/resources/v1/buck-modules-resources" ].
Proof. vm_compute. reflexivity. Qed.

Lemma get_resource_path_witness :
  let r := mkResource "buck_server" true "server.jar" in
  let run := _get_resource Example.pkg true 1000 r Example.s0 in
  exists d,
    _resource_subdir (self (snd run)) = Some d
    /\ "/out/tmp/resources/v1/server.jar" = Path.join d (basename r).
Proof.
  intros r run.
  apply (get_resource_path Example.pkg true 1000 r Example.s0
           "/out/tmp/resources/v1/server.jar" (snd run)).
  vm_compute. reflexivity.
Defined.

Lemma unpack_modules_without_modules_witness :
  let empty := mkPackage (fun _ => false) (fun _ => false) (fun _ => []) (fun _ => []) in
  exists e, _unpack_modules empty true 1000 Example.s0 = (Raise e, Example.located).
Proof.
  intros empty.
  apply (unpack_modules_without_modules empty true 1000 Example.s0 Example.canonical
           Example.located).
  - vm_compute. reflexivity.
  - left. reflexivity.
Defined.
